(** * KI-Gegen-Rechts: the LLM analysis pipeline of [ki_gegen_rechts]

    A shallow embedding of [analyser.py], [llm_chains.py], the prompt
    declarations of [prompts.py] and the table helpers of [utils.py], and
    the properties of the pipeline that the specification states about
    them.

    Python dictionaries are finite maps with string keys ([gmap string]);
    [d.update(e)] is the union that prefers [e].  Exceptions are an explicit
    result type and the observable effects (calls to the chat model, logged
    warnings) are collected in a [World] that every effectful function
    threads through.  What langchain, openai and the Python runtime
    contribute (the JSON output parser, whose result is any JSON value, the
    format instructions derived from a pydantic class, [repr], the
    validation of the keyword arguments of [ChatOpenAI]) is a variable of
    the development. *)

From Stdlib Require Import String Ascii ZArith QArith List.
From stdpp Require Import base option list gmap strings fin_maps pretty.

Set Warnings "-register-all".
Local Open Scope string_scope.

(** ** Python values *)

(** The values a parsed JSON document or a [model_dump()] can hold. *)
Inductive value : Type :=
  | VNone
  | VBool (b : bool)
  | VInt (z : Z)
  | VFloat (q : Q)
  | VStr (s : string)
  | VList (l : list value)
  | VDict (d : gmap string value).

Abbreviation dict := (gmap string value).

(** The exceptions the modelled code can raise. *)
Inductive exn : Type :=
  | OutputParserException (text : string)
  | KeyError (keys : list string)
  | ValueError (msg : string)
  | TypeError (msg : string)
  | AttributeError (msg : string)
  | IndexError (msg : string)
  | ValidationError (msg : string)
  | ProviderError (msg : string).

Inductive result (A : Type) : Type :=
  | Ok (a : A)
  | Raise (e : exn).
Arguments Ok {A} a.
Arguments Raise {A} e.

Definition is_ok {A} (r : result A) : bool :=
  match r with Ok _ => true | Raise _ => false end.

(** A decidable proposition about closed terms, by evaluation. *)
Ltac decided := apply (bool_decide_unpack _); vm_compute; exact I.

(** [d[k1][k2]...]: successive subscripts into nested dictionaries. *)
Fixpoint path (ks : list string) (v : value) : option value :=
  match ks with
  | [] => Some v
  | k :: ks' =>
      match v with
      | VDict d => match d !! k with Some v' => path ks' v' | None => None end
      | _ => None
      end
  end.

(** The same subscripts into the report of a run; [None] also when the
    run raised instead of returning a report. *)
Definition report_path (ks : list string) (outcome : result (gmap string value))
    : option value :=
  match outcome with
  | Ok report => path ks (VDict report)
  | Raise _ => None
  end.

(** ** The world: chat-model calls and log records *)

Record LlmCall : Type := {
  call_model : string;
  call_temperature : Q;
  call_prompt : string
}.

Record World : Type := {
  llm_calls : list LlmCall;
  warnings : list string
}.

Definition empty_world : World := {| llm_calls := []; warnings := [] |}.

(** A computation that may raise and that acts on the world.  The world
    is returned in both cases: what was sent or logged before an exception
    stays sent and logged. *)
Definition M (A : Type) : Type := World -> result A * World.

Definition ret {A} (a : A) : M A := fun w => (Ok a, w).
Definition raise {A} (e : exn) : M A := fun w => (Raise e, w).
Definition bind {A B} (m : M A) (f : A -> M B) : M B :=
  fun w => match m w with
           | (Ok a, w') => f a w'
           | (Raise e, w') => (Raise e, w')
           end.
Definition lift {A} (r : result A) : M A := fun w => (r, w).

Notation "x <- m ;; k" := (bind m (fun x => k))
  (at level 100, m at next level, right associativity).
Notation "'exec' m ;; k" := (bind m (fun _ => k))
  (at level 100, m at next level, right associativity).

(** [logging.warning(msg)] *)
Definition logging_warning (msg : string) : M unit :=
  fun w => (Ok tt, {| llm_calls := llm_calls w; warnings := warnings w ++ [msg] |}).

(** [try: m  except OutputParserException: h] *)
Definition try_except_OutputParserException {A} (m h : M A) : M A :=
  fun w => match m w with
           | (Raise (OutputParserException _), w') => h w'
           | r => r
           end.

(** ** Chat models *)

(** A [BaseChatModel]: its configuration and its completion capability.
    [complete] sees the calls made so far, so that a model need not answer
    the same prompt twice in the same way; it answers with the text of the
    reply ([inl]) or fails with a provider error ([inr]). *)
Record BaseChatModel : Type := {
  model : string;
  temperature : Q;
  complete : list LlmCall -> string -> string + string
}.

(** [llm.invoke(prompt_text)]: one completion request. *)
Definition llm_invoke (llm : BaseChatModel) (text : string) : M string :=
  fun w =>
    let call := {| call_model := model llm;
                   call_temperature := temperature llm;
                   call_prompt := text |} in
    let w' := {| llm_calls := llm_calls w ++ [call]; warnings := warnings w |} in
    match complete llm (llm_calls w) text with
    | inl reply => (Ok reply, w')
    | inr err => (Raise (ProviderError err), w')
    end.

(** ** Prompts and schemas ([prompts.py]) *)

Inductive field_type : Type := TStr | TBool.

(** A pydantic [BaseModel] subclass: its annotated fields, in order. *)
Definition BaseModel : Type := list (string * field_type).

Definition HatespeechDetectionFormat : BaseModel :=
  [("explanation", TStr); ("classification", TStr)].

Definition HatespeechValidatorFormat : BaseModel :=
  [("classification", TStr); ("explanation", TStr)].

Definition HatespeechClassifierFormat : BaseModel :=
  [("classification", TStr); ("racism", TBool); ("antisemitism", TBool);
   ("homophobia", TBool); ("ableism", TBool); ("violence", TBool);
   ("sexism", TBool); ("other_hate_speech", TBool); ("explanation", TStr)].

Definition RightWingRatingFormat : BaseModel :=
  [("right_wing_indicator", TBool); ("rating", TStr); ("explanation", TStr)].

(** A template is its literal text cut at the replacement fields. *)
Inductive segment : Type :=
  | Lit (text : string)
  | Field (name : string).

Record PromptTemplate : Type := {
  name : string;
  template : list segment;
  input_variables : list string;
  partial_variables : gmap string string
}.

(** [sorted(set(...))], one name at a time. *)
Fixpoint insert_sorted (k : string) (l : list string) : list string :=
  match l with
  | [] => [k]
  | k' :: l' =>
      match String.compare k k' with
      | Lt => k :: l
      | Eq => l
      | Gt => k' :: insert_sorted k l'
      end
  end.

(** [get_template_variables(template, "f-string")] of langchain: the names
    of the replacement fields, each once, sorted. *)
Fixpoint get_template_variables (t : list segment) : list string :=
  match t with
  | [] => []
  | Lit _ :: t' => get_template_variables t'
  | Field k :: t' => insert_sorted k (get_template_variables t')
  end.

(** [PromptTemplate(name=..., template=..., input_variables=...,
    partial_variables=...)].  The template is not validated against the
    list of input variables it is declared with ([validate_template] is off
    unless asked for); langchain then replaces that list by the variables
    of the template that are not partial variables, so the list written in
    the source is not the one the prompt has. *)
Definition PromptTemplate_init (name_ : string) (template_ : list segment)
    (declared_input_variables : list string) (partial_variables_ : gmap string string)
    : PromptTemplate :=
  {| name := name_;
     template := template_;
     input_variables :=
       filter (fun k => partial_variables_ !! k = None) (get_template_variables template_);
     partial_variables := partial_variables_ |}.

(** The four templates.  The replacement fields and their order are those
    of the source; of the prose between them the beginning and the end are
    kept and the middle is elided as [[...]]. *)
Definition _HATESPEECH_DETECTOR : list segment :=
  [Lit "You are a hate speech expert. [...] Always answer in the following format:
";
   Field "format_instructions";
   Lit "

<message>
";
   Field "message";
   Lit "
</message>

Answer:
"].

Definition _HATESPEECH_VALIDATOR : list segment :=
  [Lit "You are tasked with re-evaluating the classification of a message [...]
Here is the classification provided by the previous expert below:
<opinion>    
Classification: ";
   Field "classification";
   Lit "
</opinion>    

Review the content of the message:
<message>
";
   Field "message";
   Lit "
</message>

Always answer in the following format:
";
   Field "format_instructions";
   Lit "

Answer:
"].

Definition _HATESPEECH_CLASSIFIER : list segment :=
  [Lit "Please analyze the following message and categorize its content [...]
Always answer in the following format:
";
   Field "format_instructions";
   Lit "

<message>
";
   Field "message";
   Lit "
</message>

Answer:
"].

Definition _RIGHT_WING_RATER : list segment :=
  [Lit "You are an expert in understanding a broad spectrum of political ideologies [...]
Always answer in the following format:
";
   Field "format_instructions";
   Lit "

<message>
";
   Field "message";
   Lit "
</message>

Answer:
"].

(** ** [JsonBooleanChecker] ([llm_chains.py]) *)

Definition ascii_lower (c : ascii) : ascii :=
  let n := nat_of_ascii c in
  if Nat.leb 65 n && Nat.leb n 90 then ascii_of_nat (n + 32) else c.

(** [str.lower()], on the letters A to Z; the six words below are spelt
    with those only, so no other character can be folded into them. *)
Fixpoint lower (s : string) : string :=
  match s with
  | EmptyString => EmptyString
  | String c s' => String (ascii_lower c) (lower s')
  end.

Definition true_vals : list string := ["true"; "right"; "yes"].
Definition false_vals : list string := ["false"; "wrong"; "no"].

(** One turn of the loop of [parse_result], for a value on which the two
    tests can be evaluated. *)
Definition check_boolean (val : value) : value :=
  match val with
  | VStr s =>
      if bool_decide (lower s ∈ true_vals) then VBool true
      else if bool_decide (lower s ∈ false_vals) then VBool false
      else val
  | _ => val
  end.

(** [isinstance(val, bool)] short-cuts the test; otherwise [val.lower()]
    is evaluated, which only a string has. *)
Definition has_lower_or_is_bool (val : value) : bool :=
  match val with
  | VBool _ | VStr _ => true
  | _ => false
  end.

Definition parse_result (result_ : dict) : result dict :=
  if decide (map_Forall (fun _ val => has_lower_or_is_bool val = true) result_)
  then Ok (check_boolean <$> result_)
  else Raise (AttributeError "object has no attribute 'lower'").

(** ** The moderation endpoint ([llm_chains.py]) *)

(** The reply of [client.moderations.create]: each element of [results]
    is a moderation result, held as what its [model_dump()] returns. *)
Record ModerationCreateResponse : Type := {
  response_id : string;
  response_model : string;
  results : list dict
}.

(** [OpenAI(...).moderations]: a reply, or a provider error. *)
Record Moderations : Type := {
  create : value -> string -> ModerationCreateResponse + string
}.

Record OpenAIModerationChain : Type := {
  client : Moderations;
  model_name : string;
  error : bool;
  input_key : string;
  output_key : string
}.

(** [OpenAIModerationChain(client=c)], every other field at its default. *)
Definition OpenAIModerationChain_default (c : Moderations) : OpenAIModerationChain :=
  {| client := c;
     model_name := "text-moderation-latest";
     error := false;
     input_key := "message";
     output_key := "mod_results" |}.

(** [OpenAIModerationChain._call] *)
Definition _call (self : OpenAIModerationChain) (inputs : dict) : result dict :=
  match inputs !! input_key self with
  | None => Raise (KeyError [input_key self])
  | Some text =>
      match create (client self) text (model_name self) with
      | inr err => Raise (ProviderError err)
      | inl outputs =>
          match results outputs with
          | [] => Raise (IndexError "list index out of range")
          | first :: _ => Ok {[ output_key self := VDict first ]}
          end
      end
  end.

(** [Chain.invoke] of langchain, which [OpenAIModerationChain] inherits:
    the input keys are checked, [_call] is run and its outputs are returned
    together with the inputs ([{**inputs, **outputs}]). *)
Definition Chain_invoke (self : OpenAIModerationChain) (input : dict) : result dict :=
  match input !! input_key self with
  | None => Raise (ValueError "Missing some input keys")
  | Some _ =>
      match _call self input with
      | Ok outputs => Ok (outputs ∪ input)
      | Raise e => Raise e
      end
  end.

(** [get_openai_moderator_results], with the [OpenAI()] client it builds
    as an argument. *)
Definition get_openai_moderator_results
    (openai : Moderations) (input_message : string) (model : string) : result value :=
  match create openai (VStr input_message) model with
  | inr err => Raise (ProviderError err)
  | inl output =>
      match results output with
      | [] => Raise (IndexError "list index out of range")
      | first :: _ => Ok (VDict first)
      end
  end.

(** ** Helpers of the result tables ([utils.py]) *)

(** [d[k]] for a string [k]: only a dictionary can be subscripted so. *)
Definition subscript (d : value) (k : string) : result value :=
  match d with
  | VDict m =>
      match m !! k with
      | Some v => Ok v
      | None => Raise (KeyError [k])
      end
  | _ => Raise (TypeError "indices must be integers or the object is not subscriptable")
  end.

(** [_find_dict_values_with_parent(d, parent_key, target_keys)], the pairs
    it yields, as a list; [None] is the parent of the outermost dictionary.
    The entries of a dictionary are visited in the order of the map, which
    does not record the order of insertion that Python follows. *)
Fixpoint _find_dict_values_with_parent (d : value) (parent_key : option string)
    (target_keys : list string) : list (option string * value) :=
  match d with
  | VDict m =>
      map_fold
        (fun k v rest =>
           ((if bool_decide (k ∈ target_keys) then [(parent_key, v)]
             else match v with
                  | VDict _ => _find_dict_values_with_parent v (Some k) target_keys
                  | VList items =>
                      flat_map
                        (fun item => _find_dict_values_with_parent item (Some k) target_keys)
                        items
                  | _ => []
                  end) ++ rest)%list)
        [] m
  | _ => []
  end.

(** [_drop_dict_values(result, exclude_keys)] *)
Definition _drop_dict_values (result_ : dict) (exclude_keys : list string) : dict :=
  filter (fun entry => entry.1 ∉ exclude_keys) result_.

(** One turn of the loop of [_tuple_to_dict]. *)
Definition _tuple_to_dict_step (structured_data : gmap (option string) (list value))
    (pair : option string * value) : gmap (option string) (list value) :=
  match structured_data !! pair.1 with
  | None => <[ pair.1 := [pair.2] ]> structured_data
  | Some values => <[ pair.1 := (values ++ [pair.2])%list ]> structured_data
  end.

(** [_tuple_to_dict(tuple_pairs)] *)
Definition _tuple_to_dict (tuple_pairs : list (option string * value))
    : gmap (option string) (list value) :=
  fold_left _tuple_to_dict_step tuple_pairs ∅.

(** What [create_tables_single_result] computes from its argument before
    it builds the first [DataFrame]. *)
Record table_inputs : Type := {
  explanations : gmap (option string) (list value);
  mod_tags : value;
  classifier_tags : dict;
  rw_indicator : dict
}.

(** [_drop_dict_values] on a value: [result.keys()] needs a dictionary. *)
Definition drop_dict_values_of (v : value) (exclude_keys : list string) : result dict :=
  match v with
  | VDict m => Ok (_drop_dict_values m exclude_keys)
  | _ => Raise (AttributeError "object has no attribute 'keys'")
  end.

Definition and_then {A B} (r : result A) (k : A -> result B) : result B :=
  match r with
  | Ok a => k a
  | Raise e => Raise e
  end.

(** The first statements of [create_tables_single_result], up to and
    including the assignment of [rw_indicator]; the rest of the function
    hands these four values to pandas. *)
Definition create_tables_single_result_inputs (result_ : dict) : result table_inputs :=
  let tuple_pairs :=
    _find_dict_values_with_parent (VDict result_) None
      ["classification"; "explanation"; "rating"] in
  let explanations := _tuple_to_dict tuple_pairs in
  and_then (subscript (VDict result_) "moderator") (fun moderator =>
  and_then (subscript moderator "mod_results") (fun mod_results =>
  and_then (subscript mod_results "categories") (fun mod_tags =>
  and_then (subscript (VDict result_) "classifier") (fun classifier =>
  and_then (drop_dict_values_of classifier ["explanation"; "classification"])
    (fun classifier_tags =>
  and_then (subscript (VDict result_) "right_wing_rater") (fun right_wing_rater =>
  and_then (drop_dict_values_of right_wing_rater ["explanation"; "rating"])
    (fun rw_indicator =>
  Ok {| explanations := explanations;
        mod_tags := mod_tags;
        classifier_tags := classifier_tags;
        rw_indicator := rw_indicator |}))))))).

(** ** Test doubles *)

Definition dq : string := String (ascii_of_nat 34) EmptyString.

Definition json_str (s : string) : string := dq ++ s ++ dq.

Fixpoint json_members (fields : list (string * string)) : string :=
  match fields with
  | [] => ""
  | [(k, v)] => json_str k ++ ": " ++ v
  | (k, v) :: rest => json_str k ++ ": " ++ v ++ ", " ++ json_members rest
  end.

Definition json_obj (fields : list (string * string)) : string :=
  "{" ++ json_members fields ++ "}".

(** Canned replies of a mocked model. *)
Definition detector_reply : string :=
  json_obj [("explanation", json_str "The author insults the reader.");
            ("classification", json_str "Direct hate speech")].
Definition detector_dict : dict :=
  {[ "explanation" := VStr "The author insults the reader.";
     "classification" := VStr "Direct hate speech" ]}.

Definition validator_reply : string :=
  json_obj [("classification", json_str "Direct hate speech");
            ("explanation", json_str "I agree with the expert.")].
Definition validator_dict : dict :=
  {[ "classification" := VStr "Direct hate speech";
     "explanation" := VStr "I agree with the expert." ]}.

Definition classifier_reply : string :=
  json_obj [("classification", json_str "Offensive insult");
            ("racism", "false"); ("antisemitism", "false");
            ("homophobia", "false"); ("ableism", "false");
            ("violence", "false"); ("sexism", json_str "No");
            ("other_hate_speech", json_str "yes");
            ("explanation", json_str "An insult without a target group.")].
Definition classifier_dict : dict :=
  {[ "classification" := VStr "Offensive insult";
     "racism" := VBool false; "antisemitism" := VBool false;
     "homophobia" := VBool false; "ableism" := VBool false;
     "violence" := VBool false; "sexism" := VStr "No";
     "other_hate_speech" := VStr "yes";
     "explanation" := VStr "An insult without a target group." ]}.

Definition rater_reply : string :=
  json_obj [("right_wing_indicator", "false"); ("rating", json_str "0");
            ("explanation", json_str "No right-wing ideology.")].
Definition rater_dict : dict :=
  {[ "right_wing_indicator" := VBool false; "rating" := VStr "0";
     "explanation" := VStr "No right-wing ideology." ]}.

Definition garbage_reply : string := "Sorry, I cannot answer in JSON.".

(** A double of the JSON output parser: it knows the documents above, which
    it reads as JSON does (no field is checked against the pydantic class,
    no string is turned into a boolean), and rejects any other text. *)
Definition mock_json_parse (_ : BaseModel) (text : string) : option value :=
  if String.eqb text detector_reply then Some (VDict detector_dict)
  else if String.eqb text validator_reply then Some (VDict validator_dict)
  else if String.eqb text classifier_reply then Some (VDict classifier_dict)
  else if String.eqb text rater_reply then Some (VDict rater_dict)
  else None.

(** A double of the parser that reads every reply as the value [v]. *)
Definition constant_json_parse (v : value) (_ : BaseModel) (_ : string) : option value :=
  Some v.

(** A detector dictionary that carries a message of its own. *)
Definition overriding_dict : dict :=
  {[ "message" := VStr "Have a nice day.";
     "classification" := VStr "No hate speech";
     "explanation" := VStr "A friendly wish." ]}.

(** A detector dictionary without an explanation. *)
Definition unexplained_dict : dict :=
  {[ "classification" := VStr "Direct hate speech" ]}.

(** A detector dictionary without a classification. *)
Definition unclassified_dict : dict :=
  {[ "explanation" := VStr "The author insults the reader." ]}.

(** A detector reply that is a JSON array of pairs, as [dict.update]
    accepts it. *)
Definition detector_pairs : value :=
  VList [ VList [VStr "classification"; VStr "Direct hate speech"];
          VList [VStr "explanation"; VStr "The author insults the reader."] ].

Definition mock_format_instructions (o : BaseModel) : string :=
  "The output should be formatted as a JSON instance with the fields: "
  ++ String.concat ", " (map fst o).

(** A double of [repr]: the atoms as Python prints them, a dictionary of
    atoms entry by entry, deeper containers by their kind. *)
Definition repr_atom (v : value) : string :=
  match v with
  | VNone => "None"
  | VBool true => "True"
  | VBool false => "False"
  | VInt _ => "<int>"
  | VFloat _ => "<float>"
  | VStr s => "'" ++ s ++ "'"
  | VList _ => "[...]"
  | VDict _ => "{...}"
  end.

Definition mock_repr (v : value) : string :=
  match v with
  | VDict d =>
      "{" ++ String.concat ", "
               (map (fun kv => "'" ++ fst kv ++ "': " ++ repr_atom (snd kv))
                    (map_to_list d)) ++ "}"
  | _ => repr_atom v
  end.

(** Does [sub] occur in [s]? *)
Fixpoint contains (sub s : string) : bool :=
  String.prefix sub s
  || match s with
     | EmptyString => false
     | String _ s' => contains sub s'
     end.

(** A mocked chat model that answers by the kind of prompt it is sent. *)
Definition mock_complete (_ : list LlmCall) (prompt : string) : string + string :=
  if contains "You are a hate speech expert" prompt then inl detector_reply
  else if contains "You are tasked with re-evaluating" prompt then inl validator_reply
  else if contains "Please analyze the following message" prompt then inl classifier_reply
  else inl rater_reply.

Definition mock_llm : BaseChatModel :=
  {| model := "gpt-3.5-turbo-1106"; temperature := 0; complete := mock_complete |}.

(** [ChatOpenAI()] as langchain_openai configures it when nothing is
    passed, on the mocked replies. *)
Definition mock_llm_default : BaseChatModel :=
  {| model := "gpt-3.5-turbo"; temperature := 7 # 10; complete := mock_complete |}.

(** A model whose every reply is prose. *)
Definition garbage_llm : BaseChatModel :=
  {| model := "gpt-3.5-turbo-1106"; temperature := 0;
     complete := fun _ _ => inl garbage_reply |}.

(** A model that is unreachable. *)
Definition failing_llm : BaseChatModel :=
  {| model := "gpt-3.5-turbo-1106"; temperature := 0;
     complete := fun _ _ => inr "Connection error." |}.

(** A model whose first reply is prose and whose later calls fail. *)
Definition garbage_then_failing_llm : BaseChatModel :=
  {| model := "gpt-3.5-turbo-1106"; temperature := 0;
     complete := fun history _ =>
       match history with
       | [] => inl garbage_reply
       | _ => inr "Connection error."
       end |}.

Definition mock_moderation : dict :=
  {[ "flagged" := VBool false;
     "categories" := VDict {[ "harassment" := VBool true; "hate" := VBool false ]} ]}.

Definition flagged_moderation : dict :=
  {[ "flagged" := VBool true;
     "categories" := VDict {[ "harassment" := VBool true; "hate" := VBool true ]} ]}.

Definition mock_moderations (first : dict) : Moderations :=
  {| create := fun _ m =>
       inl {| response_id := "modr-1"; response_model := m; results := [first] |} |}.

Definition failing_moderations : Moderations :=
  {| create := fun _ _ => inr "Connection error." |}.

(** A service whose reply carries no result. *)
Definition empty_moderations : Moderations :=
  {| create := fun _ m =>
       inl {| response_id := "modr-2"; response_model := m; results := [] |} |}.

(** A double of the validation of [ChatOpenAI]'s further keyword
    arguments: a [max_tokens] that is not an integer is refused. *)
Definition mock_validate (model_kwargs : dict) : option string :=
  match model_kwargs !! "max_tokens" with
  | None | Some (VInt _) | Some VNone => None
  | Some _ => Some "max_tokens: value is not a valid integer"
  end.

(** ** The pipeline *)

Section Pipeline.

(** [JsonOutputParser(pydantic_object=o).get_format_instructions()] *)
Variable get_format_instructions : BaseModel -> string.

(** [JsonOutputParser(pydantic_object=o).parse(text)]: the JSON value that
    the text holds, which need not be an object and is not checked against
    the pydantic class; [None] stands for [OutputParserException]. *)
Variable json_parse : BaseModel -> string -> option value.

(** [repr(v)] *)
Variable py_repr : value -> string.

(** The completion service behind [ChatOpenAI(model=m, temperature=t)]. *)
Variable openai_complete : string -> Q -> list LlmCall -> string -> string + string.

(** What the validation of [ChatOpenAI] says of the further keyword
    arguments it is given: [None] when it accepts them, the text of the
    [ValidationError] otherwise. *)
Variable openai_validate : dict -> option string.

Definition ChatOpenAI (m : string) (t : Q) : BaseChatModel :=
  {| model := m; temperature := t; complete := openai_complete m t |}.

(** *** Prompt templates *)

Definition HATESPEECH_DETECTOR_PROMPT : PromptTemplate :=
  PromptTemplate_init "detector" _HATESPEECH_DETECTOR ["message"]
    {[ "format_instructions" := get_format_instructions HatespeechDetectionFormat ]}.

Definition HATESPEECH_VALIDATOR_PROMPT : PromptTemplate :=
  PromptTemplate_init "validator" _HATESPEECH_VALIDATOR
    ["classification"; "explanation"; "message"]
    {[ "format_instructions" := get_format_instructions HatespeechValidatorFormat ]}.

Definition HATESPEECH_CLASSIFICATION_PROMPT : PromptTemplate :=
  PromptTemplate_init "classifier" _HATESPEECH_CLASSIFIER ["message"]
    {[ "format_instructions" := get_format_instructions HatespeechClassifierFormat ]}.

Definition RIGHT_WING_RATING_PROMPT : PromptTemplate :=
  PromptTemplate_init "right-wing-rater" _RIGHT_WING_RATER ["message"]
    {[ "format_instructions" := get_format_instructions RightWingRatingFormat ]}.

(** [format(v)] of a replacement field without conversion: a string is
    inserted as it is, any other value as [str] prints it, which for the
    values here is [repr]. *)
Definition py_format (v : value) : string :=
  match v with
  | VStr s => s
  | _ => py_repr v
  end.

(** [template.format] on the keyword arguments [kwargs] *)
Fixpoint format_template (t : list segment) (kwargs : dict) : result string :=
  match t with
  | [] => Ok ""
  | Lit text :: t' =>
      match format_template t' kwargs with
      | Ok rest => Ok (text ++ rest)
      | Raise e => Raise e
      end
  | Field k :: t' =>
      match kwargs !! k with
      | None => Raise (KeyError [k])
      | Some v =>
          match format_template t' kwargs with
          | Ok rest => Ok (py_format v ++ rest)
          | Raise e => Raise e
          end
      end
  end.

(** [prompt.invoke(input)]: every input variable must be supplied; the
    partial variables are added, a supplied value taking precedence, and
    the template is formatted. *)
Definition prompt_invoke (prompt : PromptTemplate) (input : dict) : result string :=
  match filter (fun k => input !! k = None) (input_variables prompt) with
  | [] => format_template (template prompt)
            (input ∪ (VStr <$> partial_variables prompt))
  | missing => Raise (KeyError missing)
  end.

(** *** Chains *)

(** An output parser: the text of the reply to a value, or an exception. *)
Definition JsonOutputParser (pydantic_object : BaseModel) (text : string) : result value :=
  match json_parse pydantic_object text with
  | Some v => Ok v
  | None => Raise (OutputParserException text)
  end.

Definition StrOutputParser (text : string) : result value := Ok (VStr text).

(** [(prompt | llm | parser).invoke(input)] *)
Definition chain_invoke {A} (prompt : PromptTemplate) (llm : BaseChatModel)
    (parser : string -> result A) (input : dict) : M A :=
  text <- lift (prompt_invoke prompt input) ;;
  reply <- llm_invoke llm text ;;
  lift (parser reply).

(** [create_public_chat_gpt_chain]: [ChatOpenAI(model=model,
    temperature=0.0, **model_kwargs)] cannot be called with a keyword given
    twice, and it validates the keyword arguments it is called with. *)
Definition create_public_chat_gpt_chain {A} (prompt : PromptTemplate)
    (parser : string -> result A) (model : string) (model_kwargs : dict)
    : result (dict -> M A) :=
  if decide (model_kwargs !! "model" = None /\ model_kwargs !! "temperature" = None)
  then match openai_validate model_kwargs with
       | None =>
           let openai_llm := ChatOpenAI model 0 in
           Ok (chain_invoke prompt openai_llm parser)
       | Some err => Raise (ValidationError err)
       end
  else Raise (TypeError "got multiple values for keyword argument").

Definition _text_analyser_prompts : list (PromptTemplate * BaseModel) :=
  [ (HATESPEECH_DETECTOR_PROMPT, HatespeechDetectionFormat);
    (HATESPEECH_VALIDATOR_PROMPT, HatespeechValidatorFormat);
    (HATESPEECH_CLASSIFICATION_PROMPT, HatespeechClassifierFormat);
    (RIGHT_WING_RATING_PROMPT, RightWingRatingFormat) ].

(** *** The sequential analyser: [analyse_text_message_with_llm] *)

Definition parsing_failed_warning : string :=
  "Parsing failed - Switching parser to StrOutputParser".

(** The [try] statement of the loop body.  Its value is [chain_output]:
    the JSON value of the first chain, or the text of the fallback
    chain. *)
Definition run_stage (prompt : PromptTemplate) (parser_object : BaseModel)
    (llm : BaseChatModel) (input : dict) : M value :=
  try_except_OutputParserException
    (chain_invoke prompt llm (JsonOutputParser parser_object) input)
    (exec logging_warning parsing_failed_warning ;;
     chain_invoke prompt llm StrOutputParser input).

(** What [dict.update] makes of one element of a sequence: the element is
    turned into a sequence itself, which must have two elements, the key
    and the value.  A list gives its elements, a string its characters, a
    dictionary its keys; a number, a boolean and [None] give nothing.  A
    list or a dictionary cannot be a key.  Two cases are simplified, since
    a [dict] here has strings for keys and no order of insertion: a key
    that is a number, a boolean or [None], which Python stores and which
    [prompt.invoke] of the next stage then refuses (by [KeyError] when a
    variable is missing, else by this [TypeError]), is refused here; and
    the two keys of a dictionary are taken in the order of the map. *)
Definition update_pair (index : nat) (item : value) : result (string * value) :=
  let wrong_length (n : nat) :=
    Raise (ValueError ("dictionary update sequence element #" ++ pretty index
                       ++ " has length " ++ pretty n ++ "; 2 is required")) in
  match item with
  | VList [key; v] =>
      match key with
      | VStr k => Ok (k, v)
      | VList _ | VDict _ => Raise (TypeError "unhashable type")
      | _ => Raise (TypeError "keywords must be strings")
      end
  | VList l => wrong_length (length l)
  | VStr (String c1 (String c2 EmptyString)) =>
      Ok (String c1 EmptyString, VStr (String c2 EmptyString))
  | VStr s => wrong_length (String.length s)
  | VDict m =>
      match map_to_list m with
      | [(k1, _); (k2, _)] => Ok (k1, VStr k2)
      | l => wrong_length (length l)
      end
  | _ => Raise (TypeError "cannot convert dictionary update sequence element to a sequence")
  end.

(** [dict.update(seq)] for a sequence: pair by pair, from the left. *)
Fixpoint update_from_sequence (input : dict) (index : nat) (items : list value)
    : result dict :=
  match items with
  | [] => Ok input
  | item :: rest =>
      match update_pair index item with
      | Ok (k, v) => update_from_sequence (<[ k := v ]> input) (S index) rest
      | Raise e => Raise e
      end
  end.

(** The characters of a string, as iterating over it yields them; a
    character is a byte here, which it is for ASCII text. *)
Fixpoint characters (s : string) : list value :=
  match s with
  | EmptyString => []
  | String c s' => VStr (String c EmptyString) :: characters s'
  end.

(** [input.update(chain_output)]: a dictionary is merged into [input]; a
    list and a string are taken as sequences of key and value pairs, which
    of the strings only the empty one is; nothing else can be iterated
    over. *)
Definition input_update (input : dict) (chain_output : value) : result dict :=
  match chain_output with
  | VDict d => Ok (d ∪ input)
  | VList items => update_from_sequence input 0 items
  | VStr s => update_from_sequence input 0 (characters s)
  | _ => Raise (TypeError "object is not iterable")
  end.

(** One turn of the loop, on the two dictionaries it updates. *)
Definition loop_body (llm : BaseChatModel) (entry : PromptTemplate * BaseModel)
    (state : dict * dict) : M (dict * dict) :=
  let '(prompt, parser_object) := entry in
  let '(input, results) := state in
  chain_output <- run_stage prompt parser_object llm input ;;
  input' <- (if String.eqb (name prompt) "detector"
             then lift (input_update input chain_output)
             else ret input) ;;
  ret (input', <[ name prompt := chain_output ]> results).

Fixpoint analyse_loop (llm : BaseChatModel) (prompts : list (PromptTemplate * BaseModel))
    (state : dict * dict) : M (dict * dict) :=
  match prompts with
  | [] => ret state
  | entry :: rest =>
      state' <- loop_body llm entry state ;;
      analyse_loop llm rest state'
  end.

Definition analyse_text_message_with_llm (openai : Moderations)
    (message : string) (llm : BaseChatModel) : M dict :=
  moderator <- lift (get_openai_moderator_results openai message "text-moderation-latest") ;;
  state <- analyse_loop llm _text_analyser_prompts
             ({[ "message" := VStr message ]}, {[ "moderator" := moderator ]}) ;;
  ret (snd state).

(** *** The parallel analyser: [parallel_text_analyser_chains] *)

(** [RunnableParallel(steps).invoke(x)]: every step is submitted with the
    same input and every step is awaited; the results are gathered in the
    order of the keys, so that the first failure in that order is the one
    raised.  The steps run on a thread pool; here they run one after the
    other, in the order of the keys. *)
Fixpoint RunnableParallel {X} (steps : list (string * (X -> M value))) (x : X) : M dict :=
  match steps with
  | [] => ret ∅
  | (key, step) :: rest =>
      fun w =>
        let '(r, w1) := step x w in
        let '(rs, w2) := RunnableParallel rest x w1 in
        (match r, rs with
         | Ok v, Ok d => Ok (<[ key := v ]> d)
         | Raise e, _ => Raise e
         | Ok _, Raise e => Raise e
         end, w2)
  end.

(** A step whose output is a dictionary. *)
Definition as_value {X} (step : X -> M dict) (x : X) : M value :=
  d <- step x ;; ret (VDict d).

Definition RunnablePassthrough (x : value) : M value := ret x.

(** [itemgetter(key)] as a step: [x[key]], whatever [x] is. *)
Definition itemgetter (key : string) (x : value) : M value :=
  lift (subscript x key).

(** [chains[key]], for the dictionary [chains] the first loop fills. *)
Definition chains (llm : BaseChatModel) (key : string) (input : dict) : M value :=
  match List.find (fun entry => String.eqb (name (fst entry)) key) _text_analyser_prompts with
  | Some (prompt, parser_object) =>
      chain_invoke prompt llm (JsonOutputParser parser_object) input
  | None => raise (KeyError [key])
  end.

Definition detector_chain (llm : BaseChatModel) (input : dict) : M dict :=
  d <- chains llm "detector" input ;;
  RunnableParallel
    [ ("message", RunnablePassthrough);
      ("classification", itemgetter "classification");
      ("explanation", itemgetter "explanation") ] d.

(** The input of [validator_chain] is the dictionary that [detector_chain]
    returns. *)
Definition validator_chain (llm : BaseChatModel) (x : dict) : M dict :=
  RunnableParallel
    [ ("detector", as_value (fun x =>
                               RunnableParallel
                                 [ ("classification", itemgetter "classification");
                                   ("explanation", itemgetter "explanation") ]
                                 (VDict x)));
      ("validator", chains llm "validator") ] x.

Definition parallel_text_analyser_chains (llm : BaseChatModel)
    (moderator : OpenAIModerationChain) (input : dict) : M dict :=
  RunnableParallel
    [ ("detection", as_value (fun i => x <- detector_chain llm i ;; validator_chain llm x));
      ("classifier", chains llm "classifier");
      ("right_wing_rater", chains llm "right-wing-rater");
      ("moderator", as_value (fun i => lift (Chain_invoke moderator i))) ] input.

(** *** The report, as the specification describes it *)

(** The result slots of one run (section 3 of the specification). *)
Record AnalysisRun : Type := {
  moderation_result : value;
  detection_result : value;
  validation_result : value;
  classification_result : value;
  right_wing_result : value
}.

(** [aggregate] in the words of section 4.5 of the specification: a
    mapping keyed by stage name, [moderator], [detection] (itself a mapping
    with [detector] and [validator]), [classifier] and [right_wing_rater],
    to the payload of each stage.  The source has no function of this name;
    the dictionary that [parallel_text_analyser_chains] returns is compared
    with it below. *)
Definition aggregate (run : AnalysisRun) : dict :=
  {[ "moderator" := moderation_result run;
     "detection" := VDict {[ "detector" := detection_result run;
                             "validator" := validation_result run ]};
     "classifier" := classification_result run;
     "right_wing_rater" := right_wing_result run ]}.

(** ** Properties of the sequential analyser *)

(** The call that [llm] receives for the prompt text [text]. *)
Definition call_of (llm : BaseChatModel) (text : string) : LlmCall :=
  {| call_model := model llm;
     call_temperature := temperature llm;
     call_prompt := text |}.

(** Whatever [m] adds to the calls of the world satisfies [P]. *)
Definition only_calls (P : LlmCall -> Prop) {A} (m : M A) : Prop :=
  forall w, exists new,
    llm_calls (snd (m w)) = (llm_calls w ++ new)%list /\ Forall P new.

(** What [m] adds to the world: no more than [fallbacks] warnings, each
    the warning of the fallback, and no more model calls than [stages] and
    the number of those warnings together; exactly as many when [m] returns
    a value. *)
Definition effects_within (stages fallbacks : nat) {A} (m : M A) : Prop :=
  forall w, exists new_calls new_warnings,
    llm_calls (snd (m w)) = (llm_calls w ++ new_calls)%list
    /\ warnings (snd (m w)) = (warnings w ++ new_warnings)%list
    /\ Forall (fun msg => msg = parsing_failed_warning) new_warnings
    /\ length new_warnings <= fallbacks
    /\ length new_calls <= stages + length new_warnings
    /\ (is_ok (fst (m w)) = true -> length new_calls = stages + length new_warnings).

Lemma bind_ok {A B} (m : M A) (f : A -> M B) w a w1 :
  m w = (Ok a, w1) -> (x <- m ;; f x) w = f a w1.
Proof. intros H. unfold bind. now rewrite H. Qed.

Lemma bind_raise {A B} (m : M A) (f : A -> M B) w e w1 :
  m w = (Raise e, w1) -> (x <- m ;; f x) w = (Raise e, w1).
Proof. intros H. unfold bind. now rewrite H. Qed.

(** The input variables that the four prompts have: those of their
    templates.  The validator's are not the three it is declared with. *)
Lemma detector_input_variables :
  input_variables HATESPEECH_DETECTOR_PROMPT = ["message"].
Proof. vm_compute. reflexivity. Qed.

Lemma validator_input_variables :
  input_variables HATESPEECH_VALIDATOR_PROMPT = ["classification"; "message"].
Proof. vm_compute. reflexivity. Qed.

Lemma classifier_input_variables :
  input_variables HATESPEECH_CLASSIFICATION_PROMPT = ["message"].
Proof. vm_compute. reflexivity. Qed.

Lemma rater_input_variables :
  input_variables RIGHT_WING_RATING_PROMPT = ["message"].
Proof. vm_compute. reflexivity. Qed.

Lemma chain_invoke_unrendered {A} prompt llm (parser : string -> result A) input w e :
  prompt_invoke prompt input = Raise e ->
  chain_invoke prompt llm parser input w = (Raise e, w).
Proof. intros H. unfold chain_invoke, bind, lift. now rewrite H. Qed.

Lemma chain_invoke_rendered {A} prompt llm (parser : string -> result A) input w text :
  prompt_invoke prompt input = Ok text ->
  chain_invoke prompt llm parser input w =
    (match complete llm (llm_calls w) text with
     | inl reply => parser reply
     | inr err => Raise (ProviderError err)
     end,
     {| llm_calls := llm_calls w ++ [call_of llm text]; warnings := warnings w |}).
Proof.
  intros H. unfold chain_invoke, bind, lift, llm_invoke, call_of. rewrite H.
  now destruct (complete llm (llm_calls w) text).
Qed.

(** After a reply that the JSON parser rejects, a stage continues with
    the handler of its [try] statement: the warning, then the chain that
    ends in [StrOutputParser]. *)
Lemma run_stage_after_parse_failure prompt parser_object llm input w text reply :
  prompt_invoke prompt input = Ok text ->
  complete llm (llm_calls w) text = inl reply ->
  json_parse parser_object reply = None ->
  run_stage prompt parser_object llm input w
  = chain_invoke prompt llm StrOutputParser input
      {| llm_calls := llm_calls w ++ [call_of llm text];
         warnings := warnings w ++ [parsing_failed_warning] |}.
Proof.
  intros Hrender Hreply Hparse.
  unfold run_stage, try_except_OutputParserException.
  rewrite (chain_invoke_rendered _ _ _ _ _ _ Hrender), Hreply.
  unfold JsonOutputParser. rewrite Hparse. reflexivity.
Qed.

(** The [try] statement of a stage whose first reply the JSON parser
    rejects: one warning, the same prompt sent once more, and the text of
    the second reply as the value, unparsed; it raises only if that second
    call fails at the provider. *)
Lemma run_stage_fallback prompt parser_object llm input w text reply :
  prompt_invoke prompt input = Ok text ->
  complete llm (llm_calls w) text = inl reply ->
  json_parse parser_object reply = None ->
  run_stage prompt parser_object llm input w =
    (match complete llm (llm_calls w ++ [call_of llm text]) text with
     | inl plain => Ok (VStr plain)
     | inr err => Raise (ProviderError err)
     end,
     {| llm_calls := llm_calls w ++ [call_of llm text; call_of llm text];
        warnings := warnings w ++ [parsing_failed_warning] |}).
Proof.
  intros Hrender Hreply Hparse.
  rewrite (run_stage_after_parse_failure _ _ _ _ _ _ _ Hrender Hreply Hparse).
  rewrite (chain_invoke_rendered _ _ _ _ _ _ Hrender). cbn [llm_calls warnings].
  rewrite <- app_assoc. cbn [app].
  destruct (complete llm (llm_calls w ++ _) text); reflexivity.
Qed.

Lemma detector_prompt_renders message :
  exists text,
    prompt_invoke HATESPEECH_DETECTOR_PROMPT {[ "message" := VStr message ]} = Ok text.
Proof. eexists. vm_compute. reflexivity. Qed.

(** The validator prompt is refused for the lack of a classification, and
    of nothing else, when the input has a message. *)
Lemma validator_prompt_without_classification input :
  input !! "classification" = None ->
  is_Some (input !! "message") ->
  prompt_invoke HATESPEECH_VALIDATOR_PROMPT input = Raise (KeyError ["classification"]).
Proof.
  intros Hc [m Hm]. unfold prompt_invoke.
  rewrite validator_input_variables, !filter_cons, filter_nil.
  rewrite decide_True by assumption.
  rewrite decide_False by congruence. reflexivity.
Qed.

Lemma validator_prompt_needs_detector_fields message :
  prompt_invoke HATESPEECH_VALIDATOR_PROMPT {[ "message" := VStr message ]}
  = Raise (KeyError ["classification"]).
Proof.
  apply validator_prompt_without_classification.
  - reflexivity.
  - rewrite lookup_singleton_eq. now eexists.
Qed.

Lemma format_template_is_ok t kwargs :
  (forall k, In (Field k) t -> is_Some (kwargs !! k)) ->
  is_ok (format_template t kwargs) = true.
Proof.
  induction t as [|[text|k] t IH]; intros Hfields; cbn [format_template];
    [reflexivity| |].
  - specialize (IH (fun k Hk => Hfields k (or_intror Hk))).
    destruct (format_template t kwargs); [reflexivity|discriminate].
  - destruct (Hfields k (or_introl eq_refl)) as [v ->].
    specialize (IH (fun k Hk => Hfields k (or_intror Hk))).
    destruct (format_template t kwargs); [reflexivity|discriminate].
Qed.

(** The validator prompt is rendered exactly from the inputs that have a
    classification and a message. *)
Lemma validator_prompt_renders_iff input :
  is_ok (prompt_invoke HATESPEECH_VALIDATOR_PROMPT input) = true
  <-> is_Some (input !! "classification") /\ is_Some (input !! "message").
Proof.
  unfold prompt_invoke.
  rewrite validator_input_variables, !filter_cons, filter_nil.
  destruct (decide (input !! "classification" = None)) as [Hc|Hc];
    destruct (decide (input !! "message" = None)) as [Hm|Hm]; cbn [is_ok].
  - split; [discriminate|]. intros [[x Hx] _]. congruence.
  - split; [discriminate|]. intros [[x Hx] _]. congruence.
  - split; [discriminate|]. intros [_ [x Hx]]. congruence.
  - apply not_eq_None_Some in Hc, Hm. split; [now intros _|]. intros _.
    apply format_template_is_ok. intros k Hk. apply lookup_union_is_Some.
    cbn in Hk. repeat (destruct Hk as [Hk|Hk]; try discriminate);
      try contradiction; injection Hk as <-.
    + now left.
    + now left.
    + right. vm_compute. now eexists.
Qed.

(** An exception other than [OutputParserException] leaves the [try]
    statement of a stage as it is. *)
Lemma run_stage_unrendered prompt parser_object llm input w keys :
  prompt_invoke prompt input = Raise (KeyError keys) ->
  run_stage prompt parser_object llm input w = (Raise (KeyError keys), w).
Proof.
  intros H. unfold run_stage, try_except_OutputParserException.
  now rewrite (chain_invoke_unrendered _ _ _ _ _ _ H).
Qed.

Lemma loop_body_detector llm parser_object input results :
  loop_body llm (HATESPEECH_DETECTOR_PROMPT, parser_object) (input, results)
  = (chain_output <- run_stage HATESPEECH_DETECTOR_PROMPT parser_object llm input ;;
     input' <- lift (input_update input chain_output) ;;
     ret (input', <[ "detector" := chain_output ]> results)).
Proof. reflexivity. Qed.

Lemma loop_body_later llm input results :
  Forall (fun entry =>
            loop_body llm entry (input, results)
            = (chain_output <- run_stage (fst entry) (snd entry) llm input ;;
               ret (input, <[ name (fst entry) := chain_output ]> results)))
         (List.tl _text_analyser_prompts).
Proof. repeat constructor. Qed.

(** [input.update] on a text that is not empty. *)
Lemma input_update_text input c s :
  input_update input (VStr (String c s))
  = Raise (ValueError "dictionary update sequence element #0 has length 1; 2 is required").
Proof. reflexivity. Qed.

(** The run of the sequential analyser raises whenever its detector stage
    does, with the world the detector stage left. *)
Lemma analyse_detector_raises openai message llm w e w1 :
  is_ok (get_openai_moderator_results openai message "text-moderation-latest") = true ->
  run_stage HATESPEECH_DETECTOR_PROMPT HatespeechDetectionFormat llm
    {[ "message" := VStr message ]} w = (Raise e, w1) ->
  analyse_text_message_with_llm openai message llm w = (Raise e, w1).
Proof.
  intros Hmod Hdet. unfold analyse_text_message_with_llm.
  destruct (get_openai_moderator_results _ _ _) as [moderator|]; [|discriminate].
  unfold bind at 1. unfold lift at 1.
  apply bind_raise. unfold _text_analyser_prompts. cbn [analyse_loop].
  apply bind_raise. rewrite loop_body_detector. now apply bind_raise.
Qed.

(** The run of the sequential analyser after a detector stage that
    returned: the merge, then the three later stages. *)
Lemma analyse_after_detector openai message llm w moderator chain_output w1 :
  get_openai_moderator_results openai message "text-moderation-latest" = Ok moderator ->
  run_stage HATESPEECH_DETECTOR_PROMPT HatespeechDetectionFormat llm
    {[ "message" := VStr message ]} w = (Ok chain_output, w1) ->
  analyse_text_message_with_llm openai message llm w
  = match input_update {[ "message" := VStr message ]} chain_output with
    | Ok input' =>
        (state <- analyse_loop llm (List.tl _text_analyser_prompts)
                    (input', <[ "detector" := chain_output ]> {[ "moderator" := moderator ]}) ;;
         ret (snd state)) w1
    | Raise e => (Raise e, w1)
    end.
Proof.
  intros Hmod Hdet. unfold analyse_text_message_with_llm. rewrite Hmod.
  unfold bind at 1. unfold lift at 1.
  unfold _text_analyser_prompts at 1. cbn [analyse_loop].
  unfold bind at 1. unfold bind at 1. rewrite loop_body_detector.
  unfold bind at 1. rewrite Hdet.
  unfold bind at 1. unfold lift at 1.
  destruct (input_update _ chain_output) as [input'|e]; reflexivity.
Qed.

Lemma parallel_branch_raises llm moderator input w e w1 :
  (x <- detector_chain llm input ;; validator_chain llm x) w = (Raise e, w1) ->
  parallel_text_analyser_chains llm moderator input w
  = (Raise e,
     snd (chains llm "right-wing-rater" input (snd (chains llm "classifier" input w1)))).
Proof.
  intros Hdet. unfold parallel_text_analyser_chains. cbn [RunnableParallel].
  assert (Hbranch : as_value (fun i => x <- detector_chain llm i ;; validator_chain llm x)
                      input w = (Raise e, w1)).
  { unfold as_value. now apply bind_raise. }
  rewrite Hbranch.
  destruct (chains llm "classifier" input w1) as [r2 w2]. cbn [snd].
  destruct (chains llm "right-wing-rater" input w2) as [r3 w3]. cbn [snd].
  unfold as_value, bind, lift, ret.
  destruct r2, r3, (Chain_invoke moderator input); reflexivity.
Qed.

Lemma parallel_detector_raises llm moderator input w e w1 :
  chains llm "detector" input w = (Raise e, w1) ->
  parallel_text_analyser_chains llm moderator input w
  = (Raise e,
     snd (chains llm "right-wing-rater" input (snd (chains llm "classifier" input w1)))).
Proof.
  intros Hdet. apply parallel_branch_raises.
  unfold detector_chain. now do 2 apply bind_raise.
Qed.

(** C2 (amended). When the detector stage raises, no report is made: the
    exception leaves the sequential analyser with the world as the detector
    stage left it, so no validator call follows; the parallel analyser
    raises it too, after the classifier and the rater, and only they, have
    run. *)
Theorem detector_failure_aborts_run openai moderator message llm input w e w1 :
  (is_ok (get_openai_moderator_results openai message "text-moderation-latest") = true ->
   run_stage HATESPEECH_DETECTOR_PROMPT HatespeechDetectionFormat llm
     {[ "message" := VStr message ]} w = (Raise e, w1) ->
   analyse_text_message_with_llm openai message llm w = (Raise e, w1))
  /\
  (chains llm "detector" input w = (Raise e, w1) ->
   parallel_text_analyser_chains llm moderator input w
   = (Raise e,
      snd (chains llm "right-wing-rater" input (snd (chains llm "classifier" input w1))))).
Proof.
  split.
  - apply analyse_detector_raises.
  - apply parallel_detector_raises.
Qed.

(** The run of the sequential analyser in which the first reply to the
    detector prompt is rejected by the JSON parser and the second reply is
    the text [plain]: the text is handed to [input.update], which raises
    unless the text is empty; an empty text leaves the validator without a
    classification. *)
Lemma detector_fallback_run openai message llm w text reply plain :
  is_ok (get_openai_moderator_results openai message "text-moderation-latest") = true ->
  prompt_invoke HATESPEECH_DETECTOR_PROMPT {[ "message" := VStr message ]} = Ok text ->
  complete llm (llm_calls w) text = inl reply ->
  json_parse HatespeechDetectionFormat reply = None ->
  complete llm (llm_calls w ++ [call_of llm text]) text = inl plain ->
  analyse_text_message_with_llm openai message llm w
  = (Raise (match plain with
            | EmptyString => KeyError ["classification"]
            | String _ _ =>
                ValueError "dictionary update sequence element #0 has length 1; 2 is required"
            end),
     {| llm_calls := llm_calls w ++ [call_of llm text; call_of llm text];
        warnings := warnings w ++ [parsing_failed_warning] |}).
Proof.
  intros Hmod Hrender Hreply Hparse Hplain.
  destruct (get_openai_moderator_results _ _ _) as [moderator|] eqn:Hmoderator;
    [|discriminate].
  pose proof (run_stage_fallback _ _ _ _ _ _ _ Hrender Hreply Hparse) as Hdet.
  rewrite Hplain in Hdet.
  rewrite (analyse_after_detector _ _ _ _ _ _ _ Hmoderator Hdet).
  destruct plain as [|c plain]; [|now rewrite input_update_text].
  cbn [input_update characters update_from_sequence List.tl _text_analyser_prompts
         analyse_loop].
  apply bind_raise, bind_raise.
  pose proof (loop_body_later llm {[ "message" := VStr message ]}
                (<[ "detector" := VStr "" ]> {[ "moderator" := moderator ]}))
    as Hlater.
  apply Forall_inv in Hlater. cbn [fst snd] in Hlater. rewrite Hlater.
  apply bind_raise, run_stage_unrendered, validator_prompt_needs_detector_fields.
Qed.

(** No run of the sequential analyser in which the first reply to the
    detector prompt is rejected by the JSON parser ends with a report. *)
Lemma detector_fallback_never_reports openai message llm w text reply :
  prompt_invoke HATESPEECH_DETECTOR_PROMPT {[ "message" := VStr message ]} = Ok text ->
  complete llm (llm_calls w) text = inl reply ->
  json_parse HatespeechDetectionFormat reply = None ->
  exists e, fst (analyse_text_message_with_llm openai message llm w) = Raise e.
Proof.
  intros Hrender Hreply Hparse.
  destruct (get_openai_moderator_results openai message "text-moderation-latest")
    as [moderator|e0] eqn:Hmod.
  - destruct (complete llm (llm_calls w ++ [call_of llm text]) text) as [plain|err]
      eqn:Hplain.
    + rewrite (detector_fallback_run openai message llm w text reply plain);
        try assumption; [now eexists|now rewrite Hmod].
    + pose proof (run_stage_fallback _ _ _ _ _ _ _ Hrender Hreply Hparse) as Hdet.
      rewrite Hplain in Hdet.
      rewrite (analyse_detector_raises _ _ _ _ _ _ ltac:(now rewrite Hmod) Hdet).
      now eexists.
  - exists e0. unfold analyse_text_message_with_llm.
    rewrite Hmod. reflexivity.
Qed.

(** For the validator, the classifier and the rater the text of the
    second reply is what the loop records under the name of the stage, and
    the input of the loop stays as it is. *)
Lemma later_stage_fallback_recorded llm input results w text reply plain :
  Forall (fun entry =>
            prompt_invoke (fst entry) input = Ok text ->
            complete llm (llm_calls w) text = inl reply ->
            json_parse (snd entry) reply = None ->
            complete llm (llm_calls w ++ [call_of llm text]) text = inl plain ->
            loop_body llm entry (input, results) w
            = (Ok (input, <[ name (fst entry) := VStr plain ]> results),
               {| llm_calls := llm_calls w ++ [call_of llm text; call_of llm text];
                  warnings := warnings w ++ [parsing_failed_warning] |}))
         (List.tl _text_analyser_prompts).
Proof.
  eapply List.Forall_impl; [|apply (loop_body_later llm input results)].
  intros entry Hbody Hrender Hreply Hparse Hplain. rewrite Hbody.
  unfold bind at 1.
  rewrite (run_stage_fallback _ _ _ _ _ _ _ Hrender Hreply Hparse), Hplain.
  reflexivity.
Qed.

(** C1. What the loop of the sequential analyser makes of a stage whose
    first reply the JSON parser rejects and whose second reply is the text
    [plain]: one warning is logged and the same prompt is sent exactly once
    more.  For the validator, the classifier and the rater the loop goes on
    with that text recorded under the name of the stage.  For the detector
    the run ends there with an exception and no report: [ValueError] from
    [input.update] on the text or, when the text is empty, the [KeyError]
    of the validator's prompt; and a stage whose second call fails at the
    provider raises that failure. *)
Theorem fallback_text_recorded_except_for_detector openai message llm input results
    w text reply :
  complete llm (llm_calls w) text = inl reply ->
  let w2 := {| llm_calls := llm_calls w ++ [call_of llm text; call_of llm text];
               warnings := warnings w ++ [parsing_failed_warning] |} in
  (forall plain,
     complete llm (llm_calls w ++ [call_of llm text]) text = inl plain ->
     Forall (fun entry =>
               prompt_invoke (fst entry) input = Ok text ->
               json_parse (snd entry) reply = None ->
               loop_body llm entry (input, results) w
               = (Ok (input, <[ name (fst entry) := VStr plain ]> results), w2))
            (List.tl _text_analyser_prompts)
     /\ (is_ok (get_openai_moderator_results openai message "text-moderation-latest")
         = true ->
         prompt_invoke HATESPEECH_DETECTOR_PROMPT {[ "message" := VStr message ]}
         = Ok text ->
         json_parse HatespeechDetectionFormat reply = None ->
         analyse_text_message_with_llm openai message llm w
         = (Raise (match plain with
                   | EmptyString => KeyError ["classification"]
                   | String _ _ =>
                       ValueError
                         "dictionary update sequence element #0 has length 1; 2 is required"
                   end), w2)))
  /\ (forall err,
        complete llm (llm_calls w ++ [call_of llm text]) text = inr err ->
        Forall (fun entry =>
                  prompt_invoke (fst entry) input = Ok text ->
                  json_parse (snd entry) reply = None ->
                  loop_body llm entry (input, results) w
                  = (Raise (ProviderError err), w2))
               _text_analyser_prompts).
Proof.
  intros Hreply w2. split.
  - intros plain Hplain. split.
    + eapply List.Forall_impl;
        [|apply (later_stage_fallback_recorded llm input results w text reply plain)].
      intros entry Hentry Hrender Hparse. now apply Hentry.
    + intros Hmod Hrender Hparse. now apply detector_fallback_run with (reply := reply).
  - intros err Herr.
    assert (Hstage : forall prompt parser_object,
              prompt_invoke prompt input = Ok text ->
              json_parse parser_object reply = None ->
              loop_body llm (prompt, parser_object) (input, results) w
              = (Raise (ProviderError err), w2)).
    { intros prompt parser_object Hrender Hparse. unfold loop_body.
      apply bind_raise.
      rewrite (run_stage_fallback _ _ _ _ _ _ _ Hrender Hreply Hparse).
      now rewrite Herr. }
    repeat constructor; apply Hstage.
Qed.

(** C9. In the sequential analyser the detector's dictionary is merged
    into the one input dictionary of the loop, and the three later stages
    (validator, classifier, rater) all run on that merged input, which
    keeps every field of the detector's output.  The validator prompt is
    rendered from the merged input exactly when the detector's dictionary
    has a classification; it cannot be rendered from the message alone, so
    with the validator placed before the detector the loop raises before
    any model call. *)
Theorem detector_output_merged_into_input llm message results w d w1 :
  let input := {[ "message" := VStr message ]} in
  run_stage HATESPEECH_DETECTOR_PROMPT HatespeechDetectionFormat llm input w
    = (Ok (VDict d), w1) ->
  analyse_loop llm _text_analyser_prompts (input, results) w
    = analyse_loop llm (List.tl _text_analyser_prompts)
        (d ∪ input, <[ "detector" := VDict d ]> results) w1
  /\ (forall merged results',
        Forall (fun entry =>
                  loop_body llm entry (merged, results')
                  = (chain_output <- run_stage (fst entry) (snd entry) llm merged ;;
                     ret (merged, <[ name (fst entry) := chain_output ]> results')))
               (List.tl _text_analyser_prompts))
  /\ (forall k v, d !! k = Some v -> (d ∪ input) !! k = Some v)
  /\ (is_ok (prompt_invoke HATESPEECH_VALIDATOR_PROMPT (d ∪ input)) = true
      <-> is_Some (d !! "classification"))
  /\ prompt_invoke HATESPEECH_VALIDATOR_PROMPT input = Raise (KeyError ["classification"])
  /\ analyse_loop llm
        ((HATESPEECH_VALIDATOR_PROMPT, HatespeechValidatorFormat)
           :: (HATESPEECH_DETECTOR_PROMPT, HatespeechDetectionFormat)
           :: List.tl (List.tl _text_analyser_prompts))
        (input, results) w
      = (Raise (KeyError ["classification"]), w).
Proof.
  intros input Hdet. split; [|split; [|split; [|split; [|split]]]].
  - unfold _text_analyser_prompts at 1. cbn [analyse_loop].
    unfold bind at 1. rewrite loop_body_detector.
    unfold bind at 1. rewrite Hdet. reflexivity.
  - intros merged results'. apply loop_body_later.
  - intros k v Hk. now apply lookup_union_Some_l.
  - rewrite validator_prompt_renders_iff, !lookup_union_is_Some.
    subst input. rewrite lookup_singleton_eq.
    rewrite (lookup_singleton_ne "message" "classification") by discriminate.
    split.
    + intros [[H|[x Hx]] _]; [exact H|discriminate].
    + intros H. split; [now left|right; now eexists].
  - apply validator_prompt_needs_detector_fields.
  - cbn [analyse_loop]. apply bind_raise.
    pose proof (loop_body_later llm input results) as Hlater.
    apply Forall_inv in Hlater. cbn [fst snd] in Hlater. rewrite Hlater.
    apply bind_raise. apply run_stage_unrendered.
    apply validator_prompt_needs_detector_fields.
Qed.

(** ** Properties of the moderation chain and of the boolean checker *)

(** C10 (amended). [_call] does not look at the [error] field, and the
    content of the moderation result (flagged or not) has no influence on
    whether it raises: whenever the input carries the input key and the
    reply of the service carries a result, [_call] returns the whole first
    result under the output key, which is [mod_results] unless configured
    otherwise, and the chain's [invoke] returns it beside the input.
    [_call] raises in three cases and no other: [KeyError] when the input
    lacks the input key, the provider error of the client, and
    [IndexError] when the reply carries no result; [invoke] raises
    [ValueError] for the missing input key and otherwise what [_call]
    raises. *)
Theorem moderation_call_outcomes self inputs :
  (forall flag,
     _call {| client := client self; model_name := model_name self; error := flag;
              input_key := input_key self; output_key := output_key self |} inputs
     = _call self inputs)
  /\ (forall text outputs first,
        inputs !! input_key self = Some text ->
        create (client self) text (model_name self) = inl outputs ->
        head (results outputs) = Some first ->
        _call self inputs = Ok {[ output_key self := VDict first ]}
        /\ Chain_invoke self inputs = Ok ({[ output_key self := VDict first ]} ∪ inputs))
  /\ (forall e,
        _call self inputs = Raise e ->
        (inputs !! input_key self = None /\ e = KeyError [input_key self])
        \/ (exists text msg,
              inputs !! input_key self = Some text
              /\ create (client self) text (model_name self) = inr msg
              /\ e = ProviderError msg)
        \/ (exists text outputs,
              inputs !! input_key self = Some text
              /\ create (client self) text (model_name self) = inl outputs
              /\ results outputs = []
              /\ e = IndexError "list index out of range"))
  /\ (forall e,
        Chain_invoke self inputs = Raise e ->
        (inputs !! input_key self = None /\ e = ValueError "Missing some input keys")
        \/ (is_Some (inputs !! input_key self) /\ _call self inputs = Raise e))
  /\ output_key (OpenAIModerationChain_default (client self)) = "mod_results".
Proof.
  split; [|split; [|split; [|split]]].
  - intros flag. reflexivity.
  - intros text outputs first Hkey Hreply Hfirst.
    assert (Hcall : _call self inputs = Ok {[ output_key self := VDict first ]}).
    { unfold _call. rewrite Hkey, Hreply.
      destruct (results outputs) as [|first' rest]; [discriminate|].
      now injection Hfirst as ->. }
    split; [exact Hcall|]. unfold Chain_invoke. now rewrite Hkey, Hcall.
  - intros e. unfold _call.
    destruct (inputs !! input_key self) as [text|]; [|intros [= <-]; now left].
    destruct (create (client self) text (model_name self)) as [outputs|msg] eqn:Hreply.
    + destruct (results outputs) as [|first rest] eqn:Hresults; [|discriminate].
      intros [= <-]. right. right. now exists text, outputs.
    + intros [= <-]. right. left. now exists text, msg.
  - intros e. unfold Chain_invoke.
    destruct (inputs !! input_key self) as [text|]; [|intros [= <-]; now left].
    destruct (_call self inputs) as [outputs|e']; [discriminate|].
    intros [= <-]. right. split; [now eexists|reflexivity].
  - reflexivity.
Qed.

Lemma check_boolean_true s :
  lower s ∈ true_vals -> check_boolean (VStr s) = VBool true.
Proof. intros H. unfold check_boolean. now rewrite bool_decide_eq_true_2. Qed.

Lemma check_boolean_false s :
  lower s ∈ false_vals -> check_boolean (VStr s) = VBool false.
Proof.
  intros H. unfold check_boolean.
  rewrite bool_decide_eq_false_2.
  - now rewrite bool_decide_eq_true_2.
  - intros Ht. revert H. unfold true_vals in Ht. unfold false_vals.
    rewrite !elem_of_cons in Ht. rewrite !elem_of_cons.
    destruct Ht as [->|[->|[->|Ht]]]; [| | |now apply elem_of_nil in Ht];
      intros [H|[H|[H|H]]]; try discriminate; now apply elem_of_nil in H.
Qed.

Lemma check_boolean_other s :
  lower s ∉ true_vals -> lower s ∉ false_vals -> check_boolean (VStr s) = VStr s.
Proof.
  intros Ht Hf. unfold check_boolean. now rewrite !bool_decide_eq_false_2.
Qed.

(** C6 (amended). [JsonBooleanChecker.parse_result], on a dictionary of
    strings and booleans: every entry, whatever the field, whose string
    reads true, right or yes in any letter case becomes [True], one that
    reads false, wrong or no becomes [False], every other string and every
    boolean stays, and no key is added or lost. *)
Theorem parse_result_coerces d :
  map_Forall (fun _ val => has_lower_or_is_bool val = true) d ->
  exists d',
    parse_result d = Ok d'
    /\ (forall k s, d !! k = Some (VStr s) -> lower s ∈ true_vals ->
                    d' !! k = Some (VBool true))
    /\ (forall k s, d !! k = Some (VStr s) -> lower s ∈ false_vals ->
                    d' !! k = Some (VBool false))
    /\ (forall k s, d !! k = Some (VStr s) ->
                    lower s ∉ true_vals -> lower s ∉ false_vals ->
                    d' !! k = Some (VStr s))
    /\ (forall k b, d !! k = Some (VBool b) -> d' !! k = Some (VBool b))
    /\ dom d' = dom d.
Proof.
  intros Hall. exists (check_boolean <$> d). unfold parse_result.
  rewrite decide_True by assumption.
  split; [reflexivity|]. split; [|split; [|split; [|split]]].
  - intros k s Hk Hs. rewrite lookup_fmap, Hk. cbn [fmap option_fmap option_map].
    now rewrite check_boolean_true.
  - intros k s Hk Hs. rewrite lookup_fmap, Hk. cbn [fmap option_fmap option_map].
    now rewrite check_boolean_false.
  - intros k s Hk Ht Hf. rewrite lookup_fmap, Hk. cbn [fmap option_fmap option_map].
    now rewrite check_boolean_other.
  - intros k b Hk. now rewrite lookup_fmap, Hk.
  - apply dom_fmap_L.
Qed.

(** ** Which model calls a computation makes *)

Create HintDb calls.

Lemma only_calls_ret P {A} (a : A) : only_calls P (ret a).
Proof. intros w. exists []. split; [symmetry; apply app_nil_r | constructor]. Qed.

Lemma only_calls_raise P {A} e : only_calls P (@raise A e).
Proof. intros w. exists []. split; [symmetry; apply app_nil_r | constructor]. Qed.

Lemma only_calls_lift P {A} (r : result A) : only_calls P (lift r).
Proof. intros w. exists []. split; [symmetry; apply app_nil_r | constructor]. Qed.

Lemma only_calls_warning P msg : only_calls P (logging_warning msg).
Proof. intros w. exists []. split; [symmetry; apply app_nil_r | constructor]. Qed.

Lemma only_calls_llm_invoke (P : LlmCall -> Prop) llm text :
  P (call_of llm text) -> only_calls P (llm_invoke llm text).
Proof.
  intros HP w. exists [call_of llm text]. unfold llm_invoke.
  split; [|now repeat constructor].
  now destruct (complete llm (llm_calls w) text).
Qed.

Lemma only_calls_bind P {A B} (m : M A) (f : A -> M B) :
  only_calls P m -> (forall a, only_calls P (f a)) -> only_calls P (x <- m ;; f x).
Proof.
  intros Hm Hf w. unfold bind. destruct (Hm w) as (new1 & Heq1 & Hall1).
  destruct (m w) as [[a|e] w1]; cbn [snd] in Heq1.
  - destruct (Hf a w1) as (new2 & Heq2 & Hall2).
    exists (new1 ++ new2)%list. split.
    + now rewrite Heq2, Heq1, app_assoc.
    + now apply Forall_app.
  - now exists new1.
Qed.

Lemma only_calls_try P {A} (m h : M A) :
  only_calls P m -> only_calls P h ->
  only_calls P (try_except_OutputParserException m h).
Proof.
  intros Hm Hh w. unfold try_except_OutputParserException.
  destruct (Hm w) as (new1 & Heq1 & Hall1).
  destruct (m w) as [[a|e] w1]; cbn [snd] in Heq1; [now exists new1|].
  destruct e; try (now exists new1).
  destruct (Hh w1) as (new2 & Heq2 & Hall2).
  exists (new1 ++ new2)%list. split.
  - now rewrite Heq2, Heq1, app_assoc.
  - now apply Forall_app.
Qed.

#[local] Hint Resolve only_calls_ret only_calls_raise only_calls_lift
  only_calls_warning only_calls_llm_invoke only_calls_bind only_calls_try : calls.

Lemma only_calls_chain_invoke (P : LlmCall -> Prop) {A} prompt llm
    (parser : string -> result A) input :
  (forall text, P (call_of llm text)) ->
  only_calls P (chain_invoke prompt llm parser input).
Proof. intros HP. unfold chain_invoke. auto 6 with calls. Qed.

Lemma only_calls_run_stage (P : LlmCall -> Prop) prompt parser_object llm input :
  (forall text, P (call_of llm text)) ->
  only_calls P (run_stage prompt parser_object llm input).
Proof.
  intros HP. unfold run_stage.
  auto 8 using only_calls_chain_invoke with calls.
Qed.

Lemma only_calls_analyse_loop (P : LlmCall -> Prop) llm prompts state :
  (forall text, P (call_of llm text)) ->
  only_calls P (analyse_loop llm prompts state).
Proof.
  intros HP. revert state.
  induction prompts as [|[prompt parser_object] rest IH]; intros [input results];
    cbn [analyse_loop]; [auto with calls|].
  apply only_calls_bind; [|auto].
  unfold loop_body. apply only_calls_bind; [now apply only_calls_run_stage|].
  intros o. destruct (String.eqb (name prompt) "detector"); auto 6 with calls.
Qed.

Lemma only_calls_RunnableParallel (P : LlmCall -> Prop) {X}
    (steps : list (string * (X -> M value))) x :
  Forall (fun step => only_calls P (snd step x)) steps ->
  only_calls P (RunnableParallel steps x).
Proof.
  induction 1 as [|[key step] rest Hstep _ IH]; cbn [RunnableParallel];
    [auto with calls|].
  intros w. cbn [snd] in Hstep.
  destruct (Hstep w) as (new1 & Heq1 & Hall1).
  destruct (step x w) as [r w1]; cbn [snd] in Heq1.
  destruct (IH w1) as (new2 & Heq2 & Hall2).
  destruct (RunnableParallel rest x w1) as [rs w2]; cbn [snd] in Heq2 |- *.
  exists (new1 ++ new2)%list. split.
  - now rewrite Heq2, Heq1, app_assoc.
  - now apply Forall_app.
Qed.

Lemma only_calls_chains (P : LlmCall -> Prop) llm key input :
  (forall text, P (call_of llm text)) ->
  only_calls P (chains llm key input).
Proof.
  intros HP. unfold chains.
  destruct (List.find _ _) as [[prompt parser_object]|];
    auto using only_calls_chain_invoke with calls.
Qed.

Lemma only_calls_itemgetter P key x : only_calls P (itemgetter key x).
Proof. unfold itemgetter. auto with calls. Qed.

Lemma only_calls_parallel_text_analyser_chains (P : LlmCall -> Prop) llm moderator input :
  (forall text, P (call_of llm text)) ->
  only_calls P (parallel_text_analyser_chains llm moderator input).
Proof.
  intros HP. unfold parallel_text_analyser_chains.
  apply only_calls_RunnableParallel.
  repeat constructor; cbn [snd]; unfold as_value;
    auto using only_calls_chains with calls.
  apply only_calls_bind; [|auto with calls].
  apply only_calls_bind.
  - unfold detector_chain. apply only_calls_bind; [now apply only_calls_chains|].
    intros d. apply only_calls_RunnableParallel.
    repeat constructor; cbn [snd]; unfold RunnablePassthrough;
      auto using only_calls_itemgetter with calls.
  - intros x. unfold validator_chain. apply only_calls_RunnableParallel.
    repeat constructor; cbn [snd]; unfold as_value.
    + apply only_calls_bind; [|auto with calls].
      apply only_calls_RunnableParallel.
      repeat constructor; cbn [snd]; apply only_calls_itemgetter.
    + now apply only_calls_chains.
Qed.

(** C7 (amended). A chain built by [create_public_chat_gpt_chain] calls
    its model at temperature 0 and at no other.  The two analysers call the
    model they are given, at the temperature that model is configured with,
    whatever it is. *)
Theorem temperature_of_model_calls llm :
  (forall A prompt (parser : string -> result A) model model_kwargs chain input,
     create_public_chat_gpt_chain prompt parser model model_kwargs = Ok chain ->
     only_calls (fun c => call_temperature c = 0%Q) (chain input))
  /\ (forall openai message,
        only_calls (fun c => call_temperature c = temperature llm)
          (analyse_text_message_with_llm openai message llm))
  /\ (forall moderator input,
        only_calls (fun c => call_temperature c = temperature llm)
          (parallel_text_analyser_chains llm moderator input)).
Proof.
  split; [|split].
  - intros A prompt parser model model_kwargs chain input.
    unfold create_public_chat_gpt_chain. destruct (decide _); [|discriminate].
    destruct (openai_validate model_kwargs); [discriminate|].
    intros [= <-]. now apply only_calls_chain_invoke.
  - intros openai message. unfold analyse_text_message_with_llm.
    apply only_calls_bind; [auto with calls|]. intros moderator.
    apply only_calls_bind; [|auto with calls].
    now apply only_calls_analyse_loop.
  - intros moderator input. now apply only_calls_parallel_text_analyser_chains.
Qed.

(** ** Properties of the parallel analyser *)

Lemma bind_ok_iff {A B} (m : M A) (f : A -> M B) w b w' :
  (x <- m ;; f x) w = (Ok b, w')
  <-> exists a w1, m w = (Ok a, w1) /\ f a w1 = (Ok b, w').
Proof.
  unfold bind. destruct (m w) as [[a|e] w1]; split.
  - intros H. now exists a, w1.
  - now intros (a' & w1' & [= -> ->] & H).
  - discriminate.
  - now intros (a' & w1' & [=] & _).
Qed.

Lemma as_value_ok_iff {X} (step : X -> M dict) x w v w' :
  as_value step x w = (Ok v, w')
  <-> exists d, step x w = (Ok d, w') /\ v = VDict d.
Proof.
  unfold as_value. rewrite bind_ok_iff. split.
  - intros (d & w1 & Hstep & [= <- <-]). now exists d.
  - intros (d & Hstep & ->). now exists d, w'.
Qed.

Lemma itemgetter_ok_iff key x w v w' :
  itemgetter key x w = (Ok v, w')
  <-> (exists d, x = VDict d /\ d !! key = Some v) /\ w' = w.
Proof.
  unfold itemgetter, lift, subscript. split.
  - destruct x as [| | | | | |d]; try discriminate.
    destruct (d !! key) as [v0|] eqn:Hk; [|discriminate].
    intros [= -> ->]. split; [now exists d|reflexivity].
  - intros [(d & -> & Hk) ->]. now rewrite Hk.
Qed.

Lemma RunnableParallel_nil_ok_iff {X} (x : X) w d w' :
  RunnableParallel [] x w = (Ok d, w') <-> d = ∅ /\ w' = w.
Proof.
  cbn [RunnableParallel]. unfold ret. split.
  - now intros [= <- <-].
  - now intros [-> ->].
Qed.

Lemma RunnableParallel_cons_ok_iff {X} key (step : X -> M value) rest x w d w' :
  RunnableParallel ((key, step) :: rest) x w = (Ok d, w')
  <-> exists v d' w1,
        step x w = (Ok v, w1)
        /\ RunnableParallel rest x w1 = (Ok d', w')
        /\ d = <[ key := v ]> d'.
Proof.
  cbn [RunnableParallel].
  destruct (step x w) as [r w1].
  destruct (RunnableParallel rest x w1) as [rs w2] eqn:Hrest.
  split.
  - destruct r as [v|e], rs as [d'|e']; intros [= <- <-] || intros [=].
    now exists v, d', w1.
  - intros (v & d' & w1' & [= -> ->] & Hrest' & ->).
    rewrite Hrest in Hrest'. now injection Hrest' as -> ->.
Qed.

(** The two fields that both chains pick with [itemgetter]. *)
Lemma pick_fields_ok_iff x w y w' :
  RunnableParallel [ ("classification", itemgetter "classification");
                     ("explanation", itemgetter "explanation") ] x w = (Ok y, w')
  <-> exists d c e,
        x = VDict d
        /\ d !! "classification" = Some c
        /\ d !! "explanation" = Some e
        /\ y = {[ "classification" := c; "explanation" := e ]}
        /\ w' = w.
Proof.
  split.
  - intros Hpar.
    apply RunnableParallel_cons_ok_iff in Hpar as (c & d2 & w2 & Hc & Hpar & ->).
    apply RunnableParallel_cons_ok_iff in Hpar as (e & d3 & w3 & He & Hpar & ->).
    apply RunnableParallel_nil_ok_iff in Hpar as [-> ->].
    apply itemgetter_ok_iff in Hc as [(d & -> & Hc) ->].
    apply itemgetter_ok_iff in He as [(d' & [= <-] & He) ->].
    now exists d, c, e.
  - intros (d & c & e & -> & Hc & He & -> & ->).
    apply RunnableParallel_cons_ok_iff. exists c, {[ "explanation" := e ]}, w.
    split; [apply itemgetter_ok_iff; split; [now exists d|reflexivity]|].
    split; [|reflexivity].
    apply RunnableParallel_cons_ok_iff. exists e, ∅, w.
    split; [apply itemgetter_ok_iff; split; [now exists d|reflexivity]|].
    split; [|reflexivity].
    now apply RunnableParallel_nil_ok_iff.
Qed.

(** What [detector_chain] hands to [validator_chain]: under [message]
    stands the output of the detector, which is what [RunnablePassthrough]
    receives at that place of the sequence; that output must be a
    dictionary for the two fields to be picked from it. *)
Lemma detector_chain_ok_iff llm input w x w1 :
  detector_chain llm input w = (Ok x, w1)
  <-> exists d c e,
        chains llm "detector" input w = (Ok (VDict d), w1)
        /\ d !! "classification" = Some c
        /\ d !! "explanation" = Some e
        /\ x = {[ "message" := VDict d; "classification" := c; "explanation" := e ]}.
Proof.
  unfold detector_chain. rewrite bind_ok_iff. split.
  - intros (v & w0 & Hdet & Hpar).
    apply RunnableParallel_cons_ok_iff in Hpar as (v1 & d1 & w2 & [= <- <-] & Hpar & ->).
    apply pick_fields_ok_iff in Hpar as (d & c & e & -> & Hc & He & -> & ->).
    now exists d, c, e.
  - intros (d & c & e & Hdet & Hc & He & ->). exists (VDict d), w1.
    split; [assumption|].
    apply RunnableParallel_cons_ok_iff.
    exists (VDict d), {[ "classification" := c; "explanation" := e ]}, w1.
    split; [reflexivity|]. split; [|reflexivity].
    apply pick_fields_ok_iff. now exists d, c, e.
Qed.

Lemma validator_chain_ok_iff llm x w y w2 :
  validator_chain llm x w = (Ok y, w2)
  <-> exists c e val,
        x !! "classification" = Some c
        /\ x !! "explanation" = Some e
        /\ chains llm "validator" x w = (Ok val, w2)
        /\ y = {[ "detector" := VDict {[ "classification" := c; "explanation" := e ]};
                  "validator" := val ]}.
Proof.
  unfold validator_chain. split.
  - intros Hpar.
    apply RunnableParallel_cons_ok_iff in Hpar as (v1 & d1 & w1 & Hdet & Hpar & ->).
    apply RunnableParallel_cons_ok_iff in Hpar as (val & d2 & w3 & Hval & Hpar & ->).
    apply RunnableParallel_nil_ok_iff in Hpar as [-> ->].
    apply as_value_ok_iff in Hdet as (det & Hdet & ->).
    apply pick_fields_ok_iff in Hdet as (d & c & e & [= <-] & Hc & He & -> & ->).
    now exists c, e, val.
  - intros (c & e & val & Hc & He & Hval & ->).
    apply RunnableParallel_cons_ok_iff.
    exists (VDict {[ "classification" := c; "explanation" := e ]}),
      {[ "validator" := val ]}, w.
    split; [|split; [|reflexivity]].
    + apply as_value_ok_iff. eexists. split; [|reflexivity].
      apply pick_fields_ok_iff. now exists x, c, e.
    + apply RunnableParallel_cons_ok_iff. exists val, ∅, w2.
      split; [assumption|]. split; [|reflexivity].
      now apply RunnableParallel_nil_ok_iff.
Qed.

(** The runs of the parallel analyser that end with a report are those in
    which all five parts succeed, and the report is then the aggregate of
    their outputs: of the detector's output, which must be a dictionary,
    the classification and the explanation; of the validator, the
    classifier and the rater the whole output, whatever JSON value it is;
    of the moderation chain its output mapping. *)
Lemma parallel_report_iff llm moderator input w report w' :
  parallel_text_analyser_chains llm moderator input w = (Ok report, w')
  <-> exists d c e val cls rw moderation w1 w2 w3,
        chains llm "detector" input w = (Ok (VDict d), w1)
        /\ d !! "classification" = Some c
        /\ d !! "explanation" = Some e
        /\ chains llm "validator"
             {[ "message" := VDict d; "classification" := c; "explanation" := e ]} w1
           = (Ok val, w2)
        /\ chains llm "classifier" input w2 = (Ok cls, w3)
        /\ chains llm "right-wing-rater" input w3 = (Ok rw, w')
        /\ Chain_invoke moderator input = Ok moderation
        /\ report = aggregate
                      {| moderation_result := VDict moderation;
                         detection_result :=
                           VDict {[ "classification" := c; "explanation" := e ]};
                         validation_result := val;
                         classification_result := cls;
                         right_wing_result := rw |}.
Proof.
  unfold parallel_text_analyser_chains. split.
  - intros Hpar.
    apply RunnableParallel_cons_ok_iff in Hpar as (v1 & d1 & w2 & Hdet & Hpar & ->).
    apply RunnableParallel_cons_ok_iff in Hpar as (cls & d2 & w3 & Hcls & Hpar & ->).
    apply RunnableParallel_cons_ok_iff in Hpar as (rw & d3 & w4 & Hrw & Hpar & ->).
    apply RunnableParallel_cons_ok_iff in Hpar as (v4 & d4 & w5 & Hmod & Hpar & ->).
    apply RunnableParallel_nil_ok_iff in Hpar as [-> ->].
    apply as_value_ok_iff in Hdet as (detection & Hdet & ->).
    apply as_value_ok_iff in Hmod as (moderation & Hmod & ->).
    apply bind_ok_iff in Hdet as (x & w1 & Hdet & Hval).
    apply detector_chain_ok_iff in Hdet as (d & c & e & Hdet & Hc & He & ->).
    apply validator_chain_ok_iff in Hval as (c' & e' & val & Hc' & He' & Hval & ->).
    vm_compute in Hc'. vm_compute in He'. injection Hc' as <-. injection He' as <-.
    unfold lift in Hmod. injection Hmod as Hmod <-.
    exists d, c, e, val, cls, rw, moderation, w1, w2, w3.
    repeat (split; [assumption|]).
    unfold aggregate. cbn [moderation_result detection_result validation_result
                           classification_result right_wing_result].
    vm_compute. reflexivity.
  - intros (d & c & e & val & cls & rw & moderation & w1 & w2 & w3
            & Hdet & Hc & He & Hval & Hcls & Hrw & Hmod & ->).
    replace (aggregate _) with
      (<[ "detection" := VDict {[ "detector" := VDict {[ "classification" := c;
                                                         "explanation" := e ]};
                                  "validator" := val ]} ]>
         (<[ "classifier" := cls ]>
            (<[ "right_wing_rater" := rw ]>
               (<[ "moderator" := VDict moderation ]> (∅ : dict)))))
      by (vm_compute; reflexivity).
    apply RunnableParallel_cons_ok_iff.
    eexists _, _, w2. split; [|split; [|reflexivity]].
    { apply as_value_ok_iff. eexists. split; [|reflexivity].
      apply bind_ok_iff. eexists _, w1. split.
      - apply detector_chain_ok_iff. now exists d, c, e.
      - apply validator_chain_ok_iff. exists c, e, val.
        repeat split; [vm_compute; reflexivity..|assumption]. }
    apply RunnableParallel_cons_ok_iff.
    eexists _, _, w3. split; [exact Hcls|]. split; [|reflexivity].
    apply RunnableParallel_cons_ok_iff.
    eexists _, _, w'. split; [exact Hrw|]. split; [|reflexivity].
    apply RunnableParallel_cons_ok_iff.
    eexists _, _, w'. split; [|split; [|reflexivity]].
    { apply as_value_ok_iff. exists moderation. unfold lift. now rewrite Hmod. }
    now apply RunnableParallel_nil_ok_iff.
Qed.

Lemma Chain_invoke_ok_iff self input outputs_and_inputs :
  Chain_invoke self input = Ok outputs_and_inputs
  <-> exists text outputs first,
        input !! input_key self = Some text
        /\ create (client self) text (model_name self) = inl outputs
        /\ head (results outputs) = Some first
        /\ outputs_and_inputs = {[ output_key self := VDict first ]} ∪ input.
Proof.
  unfold Chain_invoke, _call. split.
  - destruct (input !! input_key self) as [text|]; [|discriminate].
    destruct (create (client self) text (model_name self)) as [outputs|err] eqn:Hc;
      [|discriminate].
    destruct (results outputs) as [|first rest] eqn:Hres; [discriminate|].
    intros [= <-]. exists text, outputs, first. rewrite Hres. auto.
  - intros (text & outputs & first & Hk & Hc & Hh & ->). rewrite Hk, Hc.
    destruct (results outputs); [discriminate|]. now injection Hh as ->.
Qed.

Lemma aggregate_keys run :
  dom (aggregate run)
  = ({[ "moderator"; "detection"; "classifier"; "right_wing_rater" ]} : gset string).
Proof.
  unfold aggregate. rewrite !dom_insert_L, dom_singleton_L. set_solver.
Qed.

Lemma aggregate_detection_keys run :
  exists detection,
    aggregate run !! "detection" = Some (VDict detection)
    /\ dom detection = ({[ "detector"; "validator" ]} : gset string).
Proof.
  exists {[ "detector" := detection_result run; "validator" := validation_result run ]}.
  split; [vm_compute; reflexivity|].
  rewrite dom_insert_L, dom_singleton_L. set_solver.
Qed.

(** C8. A run of the parallel analyser returns a report exactly when its
    five parts return (the chains of the detector, the validator, the
    classifier and the rater, and the moderation chain), and the report is
    then the aggregate of what they returned and of nothing else: its keys
    are exactly [moderator], [detection], [classifier] and
    [right_wing_rater], the keys under [detection] are exactly [detector]
    and [validator], and at each of the five places stands the output of
    the part: the moderation chain's mapping, the detector's classification
    and explanation, and the values of the validator, the classifier and
    the rater. *)
Theorem report_is_aggregate_of_slots llm moderator input w report w' :
  parallel_text_analyser_chains llm moderator input w = (Ok report, w')
  <-> exists d c e val cls rw moderation w1 w2 w3,
        (chains llm "detector" input w = (Ok (VDict d), w1)
         /\ d !! "classification" = Some c
         /\ d !! "explanation" = Some e
         /\ chains llm "validator"
              {[ "message" := VDict d; "classification" := c; "explanation" := e ]} w1
            = (Ok val, w2)
         /\ chains llm "classifier" input w2 = (Ok cls, w3)
         /\ chains llm "right-wing-rater" input w3 = (Ok rw, w')
         /\ Chain_invoke moderator input = Ok moderation)
        /\ report = aggregate
                      {| moderation_result := VDict moderation;
                         detection_result :=
                           VDict {[ "classification" := c; "explanation" := e ]};
                         validation_result := val;
                         classification_result := cls;
                         right_wing_result := rw |}
        /\ dom report
           = ({[ "moderator"; "detection"; "classifier"; "right_wing_rater" ]}
              : gset string)
        /\ (exists detection,
              report !! "detection" = Some (VDict detection)
              /\ dom detection = ({[ "detector"; "validator" ]} : gset string))
        /\ path ["moderator"] (VDict report) = Some (VDict moderation)
        /\ path ["detection"; "detector"] (VDict report)
           = Some (VDict {[ "classification" := c; "explanation" := e ]})
        /\ path ["detection"; "validator"] (VDict report) = Some val
        /\ path ["classifier"] (VDict report) = Some cls
        /\ path ["right_wing_rater"] (VDict report) = Some rw.
Proof.
  rewrite parallel_report_iff. split.
  - intros (d & c & e & val & cls & rw & moderation & w1 & w2 & w3
            & Hdet & Hc & He & Hval & Hcls & Hrw & Hmod & ->).
    exists d, c, e, val, cls, rw, moderation, w1, w2, w3.
    split; [repeat (split; [assumption|]); assumption|].
    split; [reflexivity|]. split; [apply aggregate_keys|].
    split; [apply aggregate_detection_keys|].
    repeat split; vm_compute; reflexivity.
  - intros (d & c & e & val & cls & rw & moderation & w1 & w2 & w3
            & (Hdet & Hc & He & Hval & Hcls & Hrw & Hmod) & -> & _).
    exists d, c, e, val, cls, rw, moderation, w1, w2, w3.
    repeat (split; [assumption|]). reflexivity.
Qed.

(** C5 (amended). A report of the parallel analyser is keyed exactly by
    [moderator], [detection] (itself keyed exactly by [detector] and
    [validator]), [classifier] and [right_wing_rater]; under [moderator]
    stands the output mapping of the moderation chain, that is the chain's
    input together with the output key, and the moderation result is found
    one level deeper, under that output key ([mod_results]). *)
Theorem moderation_is_nested_under_output_key llm moderator input w report w' :
  parallel_text_analyser_chains llm moderator input w = (Ok report, w') ->
  dom report
  = ({[ "moderator"; "detection"; "classifier"; "right_wing_rater" ]} : gset string)
  /\ (exists detection,
        report !! "detection" = Some (VDict detection)
        /\ dom detection = ({[ "detector"; "validator" ]} : gset string))
  /\ (exists text outputs first,
        input !! input_key moderator = Some text
        /\ create (client moderator) text (model_name moderator) = inl outputs
        /\ head (results outputs) = Some first
        /\ report !! "moderator"
           = Some (VDict ({[ output_key moderator := VDict first ]} ∪ input))
        /\ path ["moderator"; output_key moderator] (VDict report) = Some (VDict first))
  /\ output_key (OpenAIModerationChain_default (client moderator)) = "mod_results".
Proof.
  intros Hrun.
  apply parallel_report_iff in Hrun
    as (d & c & e & val & cls & rw & moderation & w1 & w2 & w3 & H).
  decompose [and] H. subst report. clear H.
  split; [apply aggregate_keys|]. split; [apply aggregate_detection_keys|].
  split; [|reflexivity].
  match goal with Hm : Chain_invoke _ _ = _ |- _ =>
    apply Chain_invoke_ok_iff in Hm as (text & outputs & first & Hk & Hc & Hh & ->)
  end.
  exists text, outputs, first. repeat (split; [assumption|]).
  split; [vm_compute; reflexivity|].
  cbn [path]. unfold aggregate. cbn [moderation_result].
  rewrite lookup_insert_eq.
  rewrite (lookup_union_Some_l _ _ _ (VDict first)); [reflexivity|].
  apply lookup_singleton_eq.
Qed.

(** ** Further properties: what a run costs *)

Ltac effects_done :=
  repeat split; auto; cbn [length] in *; try lia; try discriminate;
  try (intros; lia).

Lemma effects_within_lift {A} (r : result A) : effects_within 0 0 (lift r).
Proof.
  intros w. exists [], []. cbn. rewrite !app_nil_r.
  effects_done.
Qed.

Lemma effects_within_ret {A} (a : A) : effects_within 0 0 (ret a).
Proof. apply (effects_within_lift (Ok a)). Qed.

Lemma effects_within_raise {A} e : effects_within 0 0 (@raise A e).
Proof. apply (effects_within_lift (Raise e)). Qed.

Lemma effects_within_bind {A B} s1 f1 s2 f2 (m : M A) (k : A -> M B) :
  effects_within s1 f1 m -> (forall a, effects_within s2 f2 (k a)) ->
  effects_within (s1 + s2) (f1 + f2) (x <- m ;; k x).
Proof.
  intros Hm Hk w. unfold bind.
  destruct (Hm w) as (c1 & n1 & Hc1 & Hn1 & Hall1 & Hlen1 & Hle1 & Hex1).
  destruct (m w) as [[a|e] w1]; cbn [fst snd] in *.
  - destruct (Hk a w1) as (c2 & n2 & Hc2 & Hn2 & Hall2 & Hlen2 & Hle2 & Hex2).
    exists (c1 ++ c2)%list, (n1 ++ n2)%list.
    rewrite Hc2, Hc1, Hn2, Hn1, <- !app_assoc, !length_app.
    specialize (Hex1 eq_refl).
    repeat split; [now apply Forall_app|lia|lia|].
    intros Hok. specialize (Hex2 Hok). lia.
  - exists c1, n1. repeat split; auto; [lia|lia|discriminate].
Qed.

Lemma effects_within_chain_invoke {A} prompt llm (parser : string -> result A) input :
  effects_within 1 0 (chain_invoke prompt llm parser input).
Proof.
  intros w. destruct (prompt_invoke prompt input) as [text|e] eqn:Hrender.
  - rewrite (chain_invoke_rendered _ _ _ _ _ _ Hrender).
    exists [call_of llm text], []. cbn. rewrite app_nil_r. effects_done.
  - rewrite (chain_invoke_unrendered _ _ _ _ _ _ Hrender).
    exists [], []. cbn. rewrite !app_nil_r. effects_done.
Qed.

Lemma effects_within_chains llm key input : effects_within 1 0 (chains llm key input).
Proof.
  unfold chains. destruct (List.find _ _) as [[prompt parser_object]|].
  - apply effects_within_chain_invoke.
  - intros w. exists [], []. cbn. rewrite !app_nil_r. effects_done.
Qed.

Lemma prompt_invoke_raises_KeyError prompt input e :
  prompt_invoke prompt input = Raise e -> exists keys, e = KeyError keys.
Proof.
  unfold prompt_invoke.
  destruct (filter _ _) as [|k missing]; [|intros [= <-]; now eexists].
  generalize (template prompt).
  induction l as [|[text|k] t IH]; cbn [format_template]; [discriminate| |].
  - destruct (format_template t _); [discriminate|]. intros [= <-]. now apply IH.
  - destruct (_ !! k); [|intros [= <-]; now eexists].
    destruct (format_template t _); [discriminate|]. intros [= <-]. now apply IH.
Qed.

(** A stage whose prompt cannot be rendered raises the [KeyError] and
    leaves the world as it is. *)
Lemma run_stage_unrendered_any prompt parser_object llm input w e :
  prompt_invoke prompt input = Raise e ->
  run_stage prompt parser_object llm input w = (Raise e, w).
Proof.
  intros Hrender.
  destruct (prompt_invoke_raises_KeyError _ _ _ Hrender) as [keys ->].
  now apply run_stage_unrendered.
Qed.

(** A stage whose first reply is parsed returns the parsed value after
    that one call. *)
Lemma run_stage_parsed prompt parser_object llm input w text reply v :
  prompt_invoke prompt input = Ok text ->
  complete llm (llm_calls w) text = inl reply ->
  json_parse parser_object reply = Some v ->
  run_stage prompt parser_object llm input w
  = (Ok v,
     {| llm_calls := llm_calls w ++ [call_of llm text]; warnings := warnings w |}).
Proof.
  intros Hrender Hreply Hparse.
  unfold run_stage, try_except_OutputParserException.
  rewrite (chain_invoke_rendered _ _ _ _ _ _ Hrender), Hreply.
  unfold JsonOutputParser. now rewrite Hparse.
Qed.

(** A stage whose first call fails at the provider raises that failure. *)
Lemma run_stage_provider_error prompt parser_object llm input w text err :
  prompt_invoke prompt input = Ok text ->
  complete llm (llm_calls w) text = inr err ->
  run_stage prompt parser_object llm input w
  = (Raise (ProviderError err),
     {| llm_calls := llm_calls w ++ [call_of llm text]; warnings := warnings w |}).
Proof.
  intros Hrender Hreply.
  unfold run_stage, try_except_OutputParserException.
  now rewrite (chain_invoke_rendered _ _ _ _ _ _ Hrender), Hreply.
Qed.

Lemma effects_within_run_stage prompt parser_object llm input :
  effects_within 1 1 (run_stage prompt parser_object llm input).
Proof.
  intros w. destruct (prompt_invoke prompt input) as [text|e] eqn:Hrender.
  - destruct (complete llm (llm_calls w) text) as [reply|err] eqn:Hreply.
    + destruct (json_parse parser_object reply) as [d|] eqn:Hparse.
      * rewrite (run_stage_parsed _ _ _ _ _ _ _ _ Hrender Hreply Hparse).
        exists [call_of llm text], []. cbn. rewrite app_nil_r. effects_done.
      * rewrite (run_stage_fallback _ _ _ _ _ _ _ Hrender Hreply Hparse).
        exists [call_of llm text; call_of llm text], [parsing_failed_warning].
        destruct (complete llm (llm_calls w ++ [call_of llm text]) text);
          cbn; effects_done.
    + rewrite (run_stage_provider_error _ _ _ _ _ _ _ Hrender Hreply).
      exists [call_of llm text], []. cbn. rewrite app_nil_r. effects_done.
  - rewrite (run_stage_unrendered_any _ _ _ _ _ _ Hrender).
    exists [], []. cbn. rewrite !app_nil_r. effects_done.
Qed.

Lemma effects_within_analyse_loop llm prompts state :
  effects_within (length prompts) (length prompts) (analyse_loop llm prompts state).
Proof.
  revert state. induction prompts as [|[prompt parser_object] rest IH];
    intros [input results]; cbn [analyse_loop length]; [apply effects_within_ret|].
  apply (effects_within_bind 1 1 (length rest) (length rest)); [|auto].
  unfold loop_body.
  apply (effects_within_bind 1 1 0 0); [apply effects_within_run_stage|].
  intros o. apply (effects_within_bind 0 0 0 0).
  - destruct (String.eqb _ _); [apply effects_within_lift|apply effects_within_ret].
  - intros input'. apply effects_within_ret.
Qed.

Lemma effects_within_RunnableParallel_nil {X} (x : X) :
  effects_within 0 0 (RunnableParallel [] x).
Proof. apply effects_within_ret. Qed.

Lemma effects_within_RunnableParallel_cons {X} s1 f1 s2 f2 key
    (step : X -> M value) rest x :
  effects_within s1 f1 (step x) ->
  effects_within s2 f2 (RunnableParallel rest x) ->
  effects_within (s1 + s2) (f1 + f2) (RunnableParallel ((key, step) :: rest) x).
Proof.
  intros Hstep Hrest w. cbn [RunnableParallel].
  destruct (Hstep w) as (c1 & n1 & Hc1 & Hn1 & Hall1 & Hlen1 & Hle1 & Hex1).
  destruct (step x w) as [r w1]; cbn [fst snd] in *.
  destruct (Hrest w1) as (c2 & n2 & Hc2 & Hn2 & Hall2 & Hlen2 & Hle2 & Hex2).
  destruct (RunnableParallel rest x w1) as [rs w2]; cbn [fst snd] in *.
  exists (c1 ++ c2)%list, (n1 ++ n2)%list.
  rewrite Hc2, Hc1, Hn2, Hn1, <- !app_assoc, !length_app.
  repeat split; [now apply Forall_app|lia|lia|].
  destruct r as [v|e], rs as [d|e']; cbn [is_ok]; try discriminate.
  intros _. specialize (Hex1 eq_refl). specialize (Hex2 eq_refl). lia.
Qed.

Lemma effects_within_as_value {X} s f (step : X -> M dict) x :
  effects_within s f (step x) -> effects_within s f (as_value step x).
Proof.
  intros Hstep. unfold as_value.
  replace s with (s + 0) by lia. replace f with (f + 0) by lia.
  apply effects_within_bind; [assumption|]. intros d. apply effects_within_ret.
Qed.

Lemma effects_within_itemgetter key x : effects_within 0 0 (itemgetter key x).
Proof. apply effects_within_lift. Qed.

(** X1. A run of the sequential analyser logs at most four warnings, each
    the warning of the fallback, and makes at most four model calls and one
    more for each warning; a run that returns a report makes exactly that
    many. *)
Theorem sequential_analyser_effects openai message llm :
  effects_within 4 4 (analyse_text_message_with_llm openai message llm).
Proof.
  unfold analyse_text_message_with_llm.
  apply (effects_within_bind 0 0 4 4); [apply effects_within_lift|].
  intros moderator. apply (effects_within_bind 4 4 0 0).
  - apply (effects_within_analyse_loop llm _text_analyser_prompts).
  - intros state. apply effects_within_ret.
Qed.

(** X2. A run of the parallel analyser never logs a warning and makes at
    most four model calls, exactly four when it returns a report. *)
Theorem parallel_analyser_effects llm moderator input :
  effects_within 4 0 (parallel_text_analyser_chains llm moderator input).
Proof.
  unfold parallel_text_analyser_chains.
  apply (effects_within_RunnableParallel_cons 2 0 2 0).
  { apply effects_within_as_value. apply (effects_within_bind 1 0 1 0).
    - unfold detector_chain. apply (effects_within_bind 1 0 0 0).
      + apply effects_within_chains.
      + intros d. apply (effects_within_RunnableParallel_cons 0 0 0 0).
        { apply effects_within_ret. }
        apply (effects_within_RunnableParallel_cons 0 0 0 0).
        { apply effects_within_itemgetter. }
        apply (effects_within_RunnableParallel_cons 0 0 0 0).
        { apply effects_within_itemgetter. }
        apply effects_within_RunnableParallel_nil.
    - intros x. unfold validator_chain.
      apply (effects_within_RunnableParallel_cons 0 0 1 0).
      { apply effects_within_as_value.
        apply (effects_within_RunnableParallel_cons 0 0 0 0).
        { apply effects_within_itemgetter. }
        apply (effects_within_RunnableParallel_cons 0 0 0 0).
        { apply effects_within_itemgetter. }
        apply effects_within_RunnableParallel_nil. }
      apply (effects_within_RunnableParallel_cons 1 0 0 0).
      { apply effects_within_chains. }
      apply effects_within_RunnableParallel_nil. }
  apply (effects_within_RunnableParallel_cons 1 0 1 0).
  { apply effects_within_chains. }
  apply (effects_within_RunnableParallel_cons 1 0 0 0).
  { apply effects_within_chains. }
  apply (effects_within_RunnableParallel_cons 0 0 0 0).
  { apply effects_within_as_value, effects_within_lift. }
  apply effects_within_RunnableParallel_nil.
Qed.

(** ** Further properties: what a prompt depends on *)

Lemma filter_ext_In {A} (P Q : A -> Prop)
    `{!forall x, Decision (P x), !forall x, Decision (Q x)} (l : list A) :
  (forall x, In x l -> P x <-> Q x) -> filter P l = filter Q l.
Proof.
  induction l as [|a l IH]; intros Hiff; [reflexivity|].
  assert (Ha : P a <-> Q a) by (apply Hiff; now left).
  assert (Hl : filter P l = filter Q l) by (apply IH; intros x Hx; apply Hiff; now right).
  destruct (decide (P a)) as [HP|HP].
  - rewrite !filter_cons_True by tauto. now rewrite Hl.
  - rewrite !filter_cons_False by tauto. exact Hl.
Qed.

Lemma format_template_ext t kwargs kwargs' :
  (forall k, In (Field k) t -> kwargs !! k = kwargs' !! k) ->
  format_template t kwargs = format_template t kwargs'.
Proof.
  induction t as [|[text|k] t IH]; intros Hfields; cbn [format_template];
    [reflexivity| |].
  - rewrite IH; [reflexivity|]. intros k Hk. apply Hfields. now right.
  - rewrite (Hfields k) by now left.
    rewrite IH; [reflexivity|]. intros k' Hk'. apply Hfields. now right.
Qed.

(** A prompt depends on its input through the fields of its template, and
    through which of its input variables are supplied. *)
Lemma prompt_invoke_ext prompt input input' :
  (forall k, In k (input_variables prompt) -> input !! k = None <-> input' !! k = None) ->
  (forall k, In (Field k) (template prompt) -> input !! k = input' !! k) ->
  prompt_invoke prompt input = prompt_invoke prompt input'.
Proof.
  intros Hvars Hfields. unfold prompt_invoke.
  rewrite (filter_ext_In (fun k => input !! k = None) (fun k => input' !! k = None)
             _ Hvars).
  destruct (filter _ _); [|reflexivity].
  apply format_template_ext. intros k Hk.
  rewrite !lookup_union, (Hfields k Hk). reflexivity.
Qed.

(** X3. The prompts of the detector, the classifier and the rater depend
    on the input through [message] and [format_instructions] only: in the
    sequential analyser the classifier and the rater are sent the prompt of
    the message alone, whatever else the detector's dictionary was merged
    into the input, as long as that dictionary has neither of these two
    keys. *)
Theorem merged_fields_leave_prompts_unchanged message d :
  d !! "message" = None ->
  d !! "format_instructions" = None ->
  Forall (fun prompt =>
            prompt_invoke prompt (d ∪ {[ "message" := VStr message ]})
            = prompt_invoke prompt {[ "message" := VStr message ]})
         [HATESPEECH_DETECTOR_PROMPT; HATESPEECH_CLASSIFICATION_PROMPT;
          RIGHT_WING_RATING_PROMPT].
Proof.
  intros Hmessage Hformat.
  assert (Hm : (d ∪ {[ "message" := VStr message ]}) !! "message"
               = ({[ "message" := VStr message ]} : dict) !! "message")
    by (now rewrite lookup_union_r).
  assert (Hf : (d ∪ {[ "message" := VStr message ]}) !! "format_instructions"
               = ({[ "message" := VStr message ]} : dict) !! "format_instructions")
    by (now rewrite lookup_union_r).
  repeat constructor; apply prompt_invoke_ext; cbn;
    intros k Hk; repeat (destruct Hk as [Hk|Hk]; try discriminate);
    try contradiction; try injection Hk as <-; subst;
    rewrite ?Hm, ?Hf; reflexivity.
Qed.

(** The validator's prompt depends on its input through three keys. *)
Lemma validator_prompt_ext input input' :
  input !! "classification" = input' !! "classification" ->
  input !! "message" = input' !! "message" ->
  input !! "format_instructions" = input' !! "format_instructions" ->
  prompt_invoke HATESPEECH_VALIDATOR_PROMPT input
  = prompt_invoke HATESPEECH_VALIDATOR_PROMPT input'.
Proof.
  intros Hc Hm Hf. apply prompt_invoke_ext.
  - rewrite validator_input_variables.
    intros k [<-|[<-|[]]]; [now rewrite Hc|now rewrite Hm].
  - cbn. intros k Hk.
    repeat (destruct Hk as [Hk|Hk]; try discriminate); try contradiction;
      injection Hk as <-; assumption.
Qed.

(** X4. The validator's prompt has no field for the explanation, and the
    explanation is not among its input variables, although the source
    declares it as one: the prompt is the same whatever explanation is
    supplied and whether one is supplied or not; it depends on the input
    through [classification], [message] and [format_instructions] only. *)
Theorem validator_prompt_ignores_explanation input :
  (forall explanation explanation',
     prompt_invoke HATESPEECH_VALIDATOR_PROMPT (<[ "explanation" := explanation ]> input)
     = prompt_invoke HATESPEECH_VALIDATOR_PROMPT (<[ "explanation" := explanation' ]> input))
  /\ (forall explanation,
        prompt_invoke HATESPEECH_VALIDATOR_PROMPT (<[ "explanation" := explanation ]> input)
        = prompt_invoke HATESPEECH_VALIDATOR_PROMPT input)
  /\ prompt_invoke HATESPEECH_VALIDATOR_PROMPT (delete "explanation" input)
     = prompt_invoke HATESPEECH_VALIDATOR_PROMPT input
  /\ input_variables HATESPEECH_VALIDATOR_PROMPT = ["classification"; "message"]
  /\ (forall input',
        input !! "classification" = input' !! "classification" ->
        input !! "message" = input' !! "message" ->
        input !! "format_instructions" = input' !! "format_instructions" ->
        prompt_invoke HATESPEECH_VALIDATOR_PROMPT input
        = prompt_invoke HATESPEECH_VALIDATOR_PROMPT input').
Proof.
  split; [|split; [|split; [|split]]].
  - intros explanation explanation'.
    apply validator_prompt_ext; now rewrite !lookup_insert_ne by discriminate.
  - intros explanation.
    apply validator_prompt_ext; now rewrite lookup_insert_ne by discriminate.
  - apply validator_prompt_ext; now rewrite lookup_delete_ne by discriminate.
  - apply validator_input_variables.
  - apply validator_prompt_ext.
Qed.

(** ** Further properties: the runs of the sequential analyser *)

Lemma lift_ok_iff {A} (r : result A) w a w' :
  lift r w = (Ok a, w') <-> r = Ok a /\ w' = w.
Proof.
  unfold lift. split.
  - now intros [= -> ->].
  - now intros [-> ->].
Qed.

Lemma ret_ok_iff {A} (a b : A) w w' :
  ret a w = (Ok b, w') <-> b = a /\ w' = w.
Proof.
  unfold ret. split.
  - now intros [= -> ->].
  - now intros [-> ->].
Qed.

Lemma loop_body_validator llm parser_object input results :
  loop_body llm (HATESPEECH_VALIDATOR_PROMPT, parser_object) (input, results)
  = (chain_output <- run_stage HATESPEECH_VALIDATOR_PROMPT parser_object llm input ;;
     ret (input, <[ "validator" := chain_output ]> results)).
Proof. reflexivity. Qed.

Lemma loop_body_classifier llm parser_object input results :
  loop_body llm (HATESPEECH_CLASSIFICATION_PROMPT, parser_object) (input, results)
  = (chain_output <- run_stage HATESPEECH_CLASSIFICATION_PROMPT parser_object llm input ;;
     ret (input, <[ "classifier" := chain_output ]> results)).
Proof. reflexivity. Qed.

Lemma loop_body_rater llm parser_object input results :
  loop_body llm (RIGHT_WING_RATING_PROMPT, parser_object) (input, results)
  = (chain_output <- run_stage RIGHT_WING_RATING_PROMPT parser_object llm input ;;
     ret (input, <[ "right-wing-rater" := chain_output ]> results)).
Proof. reflexivity. Qed.

(** A stage that returns has rendered its prompt. *)
Lemma run_stage_ok_rendered prompt parser_object llm input w chain_output w' :
  run_stage prompt parser_object llm input w = (Ok chain_output, w') ->
  is_ok (prompt_invoke prompt input) = true.
Proof.
  intros Hrun. destruct (prompt_invoke prompt input) as [text|e] eqn:Hrender;
    [reflexivity|].
  rewrite (run_stage_unrendered_any _ _ _ _ _ _ Hrender) in Hrun. discriminate.
Qed.

(** The steps of a run of the sequential analyser that returns a report. *)
Lemma analyse_ok_inv openai message llm w results w' :
  analyse_text_message_with_llm openai message llm w = (Ok results, w') ->
  exists moderator detector input' validator classifier rater w1 w2 w3,
    get_openai_moderator_results openai message "text-moderation-latest" = Ok moderator
    /\ run_stage HATESPEECH_DETECTOR_PROMPT HatespeechDetectionFormat llm
         {[ "message" := VStr message ]} w = (Ok detector, w1)
    /\ input_update {[ "message" := VStr message ]} detector = Ok input'
    /\ run_stage HATESPEECH_VALIDATOR_PROMPT HatespeechValidatorFormat llm input' w1
       = (Ok validator, w2)
    /\ run_stage HATESPEECH_CLASSIFICATION_PROMPT HatespeechClassifierFormat llm input' w2
       = (Ok classifier, w3)
    /\ run_stage RIGHT_WING_RATING_PROMPT RightWingRatingFormat llm input' w3
       = (Ok rater, w')
    /\ results
       = <[ "right-wing-rater" := rater ]>
           (<[ "classifier" := classifier ]>
              (<[ "validator" := validator ]>
                 (<[ "detector" := detector ]> {[ "moderator" := moderator ]}))).
Proof.
  unfold analyse_text_message_with_llm. intros Hrun.
  apply bind_ok_iff in Hrun as (moderator & w0 & Hmod & Hrun).
  apply lift_ok_iff in Hmod as [Hmod ->].
  apply bind_ok_iff in Hrun as ([input4 results4] & w4 & Hloop & Hret).
  apply ret_ok_iff in Hret as [-> ->]. cbn [snd].
  unfold _text_analyser_prompts in Hloop. cbn [analyse_loop] in Hloop.
  apply bind_ok_iff in Hloop as ([input1 results1] & w1 & Hdet & Hloop).
  rewrite loop_body_detector in Hdet.
  apply bind_ok_iff in Hdet as (o1 & w1' & Hdet & Hupd).
  apply bind_ok_iff in Hupd as (input1' & w1'' & Hupd & Hret).
  apply lift_ok_iff in Hupd as [Hupd ->].
  apply ret_ok_iff in Hret as [[= -> ->] ->].
  apply bind_ok_iff in Hloop as ([input2 results2] & w2 & Hval & Hloop).
  rewrite loop_body_validator in Hval.
  apply bind_ok_iff in Hval as (o2 & w2' & Hval & Hret).
  apply ret_ok_iff in Hret as [[= -> ->] ->].
  apply bind_ok_iff in Hloop as ([input3 results3] & w3 & Hcls & Hloop).
  rewrite loop_body_classifier in Hcls.
  apply bind_ok_iff in Hcls as (o3 & w3' & Hcls & Hret).
  apply ret_ok_iff in Hret as [[= -> ->] ->].
  apply bind_ok_iff in Hloop as ([input5 results5] & w5 & Hrw & Hloop).
  rewrite loop_body_rater in Hrw.
  apply bind_ok_iff in Hrw as (o4 & w4' & Hrw & Hret).
  apply ret_ok_iff in Hret as [[= -> ->] ->].
  apply ret_ok_iff in Hloop as [[= -> ->] ->].
  exists moderator, o1, input1', o2, o3, o4, w1', w2', w3'.
  repeat split; assumption.
Qed.

(** X5. A report of the sequential analyser has exactly the five keys
    [moderator], [detector], [validator], [classifier] and
    [right-wing-rater], at one level; under [moderator] stands the
    moderation result itself; and under [detector] stands either a
    dictionary that has a classification or a list, which [input.update]
    took for a sequence of pairs: never the text of a fallback, a number, a
    boolean or [None]. *)
Theorem sequential_report_shape openai message llm w results w' :
  analyse_text_message_with_llm openai message llm w = (Ok results, w') ->
  dom results
  = ({[ "moderator"; "detector"; "validator"; "classifier"; "right-wing-rater" ]}
     : gset string)
  /\ (exists moderator,
        get_openai_moderator_results openai message "text-moderation-latest" = Ok moderator
        /\ results !! "moderator" = Some moderator)
  /\ (exists detector,
        results !! "detector" = Some detector
        /\ match detector with
           | VDict d => is_Some (d !! "classification")
           | VList _ => True
           | _ => False
           end).
Proof.
  clear openai_complete openai_validate.
  intros Hrun.
  apply analyse_ok_inv in Hrun
    as (moderator & o1 & input' & o2 & o3 & o4 & w1 & w2 & w3
        & Hmod & Hdet & Hupd & Hval & Hcls & Hrw & ->).
  split; [|split].
  - rewrite !dom_insert_L, dom_singleton_L. set_solver.
  - exists moderator. split; [assumption|].
    rewrite !lookup_insert_ne by discriminate. apply lookup_singleton_eq.
  - exists o1. split.
    { rewrite !lookup_insert_ne by discriminate. apply lookup_insert_eq. }
    apply run_stage_ok_rendered, validator_prompt_renders_iff in Hval as [Hc _].
    destruct o1 as [| | | |s|items|d]; try discriminate Hupd; [|exact I|].
    + destruct s as [|c s]; [|discriminate Hupd].
      injection Hupd as <-. destruct Hc as [x Hx]. discriminate Hx.
    + injection Hupd as <-. apply lookup_union_is_Some in Hc as [Hc|[x Hx]];
        [exact Hc|discriminate Hx].
Qed.

Lemma bind_calls_extend {A B} (m : M A) (k : A -> M B) w :
  (forall a, only_calls (fun _ => True) (k a)) ->
  exists new, llm_calls (snd ((x <- m ;; k x) w)) = (llm_calls (snd (m w)) ++ new)%list.
Proof.
  intros Hk. unfold bind. destruct (m w) as [[a|e] w1]; cbn [snd].
  - destruct (Hk a w1) as (new & Heq & _). now exists new.
  - exists []. now rewrite app_nil_r.
Qed.

Lemma run_stage_calls_at_least_once prompt parser_object llm input w text :
  prompt_invoke prompt input = Ok text ->
  exists more,
    llm_calls (snd (run_stage prompt parser_object llm input w))
    = (llm_calls w ++ call_of llm text :: more)%list.
Proof.
  intros Hrender.
  destruct (complete llm (llm_calls w) text) as [reply|err] eqn:Hreply.
  - destruct (json_parse parser_object reply) as [d|] eqn:Hparse.
    + rewrite (run_stage_parsed _ _ _ _ _ _ _ _ Hrender Hreply Hparse). now exists [].
    + rewrite (run_stage_fallback _ _ _ _ _ _ _ Hrender Hreply Hparse).
      now exists [call_of llm text].
  - rewrite (run_stage_provider_error _ _ _ _ _ _ _ Hrender Hreply). now exists [].
Qed.

(** The calls of the loop begin with the call of its first stage, when the
    prompt of that stage is rendered. *)
Lemma analyse_loop_calls_first_stage llm prompt parser_object rest input results w text :
  prompt_invoke prompt input = Ok text ->
  exists more,
    llm_calls (snd (analyse_loop llm ((prompt, parser_object) :: rest) (input, results) w))
    = (llm_calls w ++ call_of llm text :: more)%list.
Proof.
  intros Hrender. cbn [analyse_loop].
  destruct (bind_calls_extend (loop_body llm (prompt, parser_object) (input, results))
              (fun state => analyse_loop llm rest state) w) as [n1 H1];
    [intros; now apply only_calls_analyse_loop|].
  rewrite H1. clear H1. unfold loop_body.
  destruct (bind_calls_extend (run_stage prompt parser_object llm input)
              (fun chain_output =>
                 input' <- (if String.eqb (name prompt) "detector"
                            then lift (input_update input chain_output)
                            else ret input) ;;
                 ret (input', <[ name prompt := chain_output ]> results)) w) as [n2 H2].
  { intros chain_output. destruct (String.eqb _ _); auto with calls. }
  rewrite H2. clear H2.
  destruct (run_stage_calls_at_least_once _ parser_object llm _ w _ Hrender) as [more H3].
  rewrite H3. exists (more ++ n2 ++ n1)%list.
  now rewrite <- !app_assoc.
Qed.

(** X6. The sequential analyser consults the moderation endpoint before
    anything else: when that request fails, the run raises its error with
    no model call made and nothing logged; and these are the only runs
    without a model call. *)
Theorem no_model_call_iff_moderation_fails openai message llm w :
  (forall e,
     get_openai_moderator_results openai message "text-moderation-latest" = Raise e ->
     analyse_text_message_with_llm openai message llm w = (Raise e, w))
  /\ (llm_calls (snd (analyse_text_message_with_llm openai message llm w)) = llm_calls w
      <-> is_ok (get_openai_moderator_results openai message "text-moderation-latest")
          = false).
Proof.
  assert (Hraise : forall e,
            get_openai_moderator_results openai message "text-moderation-latest" = Raise e ->
            analyse_text_message_with_llm openai message llm w = (Raise e, w)).
  { intros e He. unfold analyse_text_message_with_llm. apply bind_raise.
    unfold lift. now rewrite He. }
  split; [exact Hraise|]. split.
  - intros Hcalls.
    destruct (get_openai_moderator_results openai message "text-moderation-latest")
      as [moderator|e] eqn:Hmod; [exfalso|reflexivity].
    unfold analyse_text_message_with_llm in Hcalls. rewrite Hmod in Hcalls.
    unfold bind at 1 in Hcalls. unfold lift at 1 in Hcalls.
    destruct (bind_calls_extend
                (analyse_loop llm _text_analyser_prompts
                   ({[ "message" := VStr message ]}, {[ "moderator" := moderator ]}))
                (fun state => ret (snd state)) w) as [n1 H1];
      [intros; apply only_calls_ret|].
    rewrite H1 in Hcalls. clear H1.
    destruct (detector_prompt_renders message) as [text Hrender].
    unfold _text_analyser_prompts in Hcalls.
    destruct (analyse_loop_calls_first_stage llm HATESPEECH_DETECTOR_PROMPT
                HatespeechDetectionFormat
                [(HATESPEECH_VALIDATOR_PROMPT, HatespeechValidatorFormat);
                 (HATESPEECH_CLASSIFICATION_PROMPT, HatespeechClassifierFormat);
                 (RIGHT_WING_RATING_PROMPT, RightWingRatingFormat)]
                {[ "message" := VStr message ]} {[ "moderator" := moderator ]} w text
                Hrender) as [more H2].
    rewrite H2 in Hcalls. apply (f_equal length) in Hcalls.
    rewrite !length_app in Hcalls. cbn [length] in Hcalls. lia.
  - intros Hfail.
    destruct (get_openai_moderator_results openai message "text-moderation-latest")
      as [moderator|e] eqn:Hmod; [discriminate|].
    now rewrite (Hraise e eq_refl).
Qed.

Lemma union_singleton_absorbed (d : dict) k v :
  is_Some (d !! k) -> d ∪ {[ k := v ]} = d.
Proof.
  intros [x Hx]. apply map_eq. intros i.
  destruct (d !! i) as [y|] eqn:Hi.
  - now apply lookup_union_Some_l.
  - rewrite lookup_union_r by assumption.
    apply lookup_singleton_ne. intros <-. congruence.
Qed.

(** X7. The detector's dictionary is merged over the input, so a key
    [message] in it replaces the message under analysis: the validator, the
    classifier and the rater then run on the detector's dictionary alone. *)
Theorem detector_message_replaces_input llm message results w d w1 :
  run_stage HATESPEECH_DETECTOR_PROMPT HatespeechDetectionFormat llm
    {[ "message" := VStr message ]} w = (Ok (VDict d), w1) ->
  is_Some (d !! "message") ->
  analyse_loop llm _text_analyser_prompts ({[ "message" := VStr message ]}, results) w
  = analyse_loop llm (List.tl _text_analyser_prompts)
      (d, <[ "detector" := VDict d ]> results) w1.
Proof.
  intros Hdet Hmessage. unfold _text_analyser_prompts at 1. cbn [analyse_loop].
  unfold bind at 1. rewrite loop_body_detector.
  unfold bind at 1. rewrite Hdet. cbn [input_update].
  unfold bind at 1. unfold lift, ret.
  now rewrite (union_singleton_absorbed d "message" (VStr message) Hmessage).
Qed.

(** What the parallel analyser raises when the detector's dictionary lacks
    one of the two fields picked from it. *)
Lemma parallel_detector_field_missing llm moderator input w d w1 k :
  chains llm "detector" input w = (Ok (VDict d), w1) ->
  match d !! "classification" with
  | None => k = "classification"
  | Some _ => d !! "explanation" = None /\ k = "explanation"
  end ->
  parallel_text_analyser_chains llm moderator input w
  = (Raise (KeyError [k]),
     snd (chains llm "right-wing-rater" input (snd (chains llm "classifier" input w1)))).
Proof.
  intros Hdet Hk. apply parallel_branch_raises. apply bind_raise.
  unfold detector_chain. rewrite (bind_ok _ _ _ _ _ Hdet).
  cbn [RunnableParallel]. unfold RunnablePassthrough, itemgetter, lift, ret, subscript.
  destruct (d !! "classification") as [c|].
  - destruct Hk as [-> ->]. reflexivity.
  - subst k. now destruct (d !! "explanation").
Qed.

(** X8. A detector reply that parses to a dictionary without a
    classification ends both analysers with the [KeyError] for it before
    the validator is asked: the sequential one when it renders the
    validator prompt, the parallel one when it picks the field from the
    detector's output.  A dictionary that has a classification but no
    explanation still ends the parallel analyser, with the [KeyError] for
    the explanation, while the sequential analyser renders the validator
    prompt from it and asks the validator. *)
Theorem detector_reply_without_fields openai moderator message llm input w d w1 :
  (d !! "classification" = None ->
   (is_ok (get_openai_moderator_results openai message "text-moderation-latest") = true ->
    run_stage HATESPEECH_DETECTOR_PROMPT HatespeechDetectionFormat llm
      {[ "message" := VStr message ]} w = (Ok (VDict d), w1) ->
    analyse_text_message_with_llm openai message llm w
    = (Raise (KeyError ["classification"]), w1))
   /\ (chains llm "detector" input w = (Ok (VDict d), w1) ->
       parallel_text_analyser_chains llm moderator input w
       = (Raise (KeyError ["classification"]),
          snd (chains llm "right-wing-rater" input
                 (snd (chains llm "classifier" input w1))))))
  /\ (is_Some (d !! "classification") ->
      d !! "explanation" = None ->
      (chains llm "detector" input w = (Ok (VDict d), w1) ->
       parallel_text_analyser_chains llm moderator input w
       = (Raise (KeyError ["explanation"]),
          snd (chains llm "right-wing-rater" input
                 (snd (chains llm "classifier" input w1)))))
      /\ exists text,
           prompt_invoke HATESPEECH_VALIDATOR_PROMPT (d ∪ {[ "message" := VStr message ]})
           = Ok text
           /\ (is_ok (get_openai_moderator_results openai message "text-moderation-latest")
               = true ->
               run_stage HATESPEECH_DETECTOR_PROMPT HatespeechDetectionFormat llm
                 {[ "message" := VStr message ]} w = (Ok (VDict d), w1) ->
               exists more,
                 llm_calls (snd (analyse_text_message_with_llm openai message llm w))
                 = (llm_calls w1 ++ call_of llm text :: more)%list)).
Proof.
  split.
  - intros Hc. split.
    + intros Hmod Hdet.
      destruct (get_openai_moderator_results _ _ _) as [moderation|] eqn:Hmoderation;
        [|discriminate].
      rewrite (analyse_after_detector _ _ _ _ _ _ _ Hmoderation Hdet).
      cbn [input_update List.tl _text_analyser_prompts analyse_loop].
      apply bind_raise, bind_raise. rewrite loop_body_validator.
      apply bind_raise, run_stage_unrendered, validator_prompt_without_classification.
      * rewrite lookup_union_r by assumption. reflexivity.
      * apply lookup_union_is_Some. right. rewrite lookup_singleton_eq. now eexists.
    + intros Hdet. apply (parallel_detector_field_missing _ _ _ _ d); [assumption|].
      now rewrite Hc.
  - intros [c Hc] He. split.
    + intros Hdet. apply (parallel_detector_field_missing _ _ _ _ d); [assumption|].
      now rewrite Hc.
    + assert (Hok : is_ok (prompt_invoke HATESPEECH_VALIDATOR_PROMPT
                             (d ∪ {[ "message" := VStr message ]})) = true).
      { apply validator_prompt_renders_iff. split; apply lookup_union_is_Some.
        - left. now exists c.
        - right. rewrite lookup_singleton_eq. now eexists. }
      destruct (prompt_invoke HATESPEECH_VALIDATOR_PROMPT _) as [text|] eqn:Hrender;
        [|discriminate].
      exists text. split; [reflexivity|]. intros Hmod Hdet.
      destruct (get_openai_moderator_results _ _ _) as [moderation|] eqn:Hmoderation;
        [|discriminate].
      rewrite (analyse_after_detector _ _ _ _ _ _ _ Hmoderation Hdet).
      cbn [input_update List.tl _text_analyser_prompts].
      destruct (bind_calls_extend
                  (analyse_loop llm
                     [(HATESPEECH_VALIDATOR_PROMPT, HatespeechValidatorFormat);
                      (HATESPEECH_CLASSIFICATION_PROMPT, HatespeechClassifierFormat);
                      (RIGHT_WING_RATING_PROMPT, RightWingRatingFormat)]
                     (d ∪ {[ "message" := VStr message ]},
                      <[ "detector" := VDict d ]> {[ "moderator" := moderation ]}))
                  (fun state => ret (snd state)) w1) as [n1 H1];
        [intros; apply only_calls_ret|].
      rewrite H1. clear H1.
      destruct (analyse_loop_calls_first_stage llm HATESPEECH_VALIDATOR_PROMPT
                  HatespeechValidatorFormat
                  [(HATESPEECH_CLASSIFICATION_PROMPT, HatespeechClassifierFormat);
                   (RIGHT_WING_RATING_PROMPT, RightWingRatingFormat)]
                  (d ∪ {[ "message" := VStr message ]})
                  (<[ "detector" := VDict d ]> {[ "moderator" := moderation ]}) w1 text
                  Hrender) as [more H2].
      rewrite H2. exists (more ++ n1)%list. now rewrite <- app_assoc.
Qed.

(** ** Further properties: moderation, chain construction, the checker *)

(** X9. The two ways to the moderation endpoint agree: whatever
    [get_openai_moderator_results] returns for a message is what the chain
    with the default settings returns for it under [mod_results], beside
    the message, and when one of them raises the other raises the same. *)
Theorem moderation_paths_agree openai message :
  match get_openai_moderator_results openai message "text-moderation-latest" with
  | Ok moderation =>
      Chain_invoke (OpenAIModerationChain_default openai)
        {[ "message" := VStr message ]}
      = Ok {[ "mod_results" := moderation; "message" := VStr message ]}
  | Raise e =>
      Chain_invoke (OpenAIModerationChain_default openai)
        {[ "message" := VStr message ]} = Raise e
  end.
Proof.
  unfold get_openai_moderator_results, Chain_invoke, _call.
  cbn [OpenAIModerationChain_default input_key output_key client model_name].
  rewrite lookup_singleton_eq.
  destruct (create openai (VStr message) "text-moderation-latest") as [outputs|err];
    [|reflexivity].
  destruct (results outputs) as [|first rest]; reflexivity.
Qed.



Lemma check_boolean_idempotent val :
  check_boolean (check_boolean val) = check_boolean val.
Proof.
  destruct val as [| | | |s| |]; try reflexivity.
  unfold check_boolean.
  destruct (bool_decide (lower s ∈ true_vals)) eqn:Ht; [reflexivity|].
  destruct (bool_decide (lower s ∈ false_vals)) eqn:Hf; [reflexivity|].
  now rewrite Ht, Hf.
Qed.

Lemma check_boolean_keeps_kind val :
  has_lower_or_is_bool (check_boolean val) = has_lower_or_is_bool val.
Proof.
  destruct val as [| | | |s| |]; try reflexivity.
  unfold check_boolean.
  destruct (bool_decide (lower s ∈ true_vals)); [reflexivity|].
  now destruct (bool_decide (lower s ∈ false_vals)).
Qed.

(** X12. Checking twice changes nothing: what [parse_result] returns it
    accepts again and returns as it is. *)
Theorem parse_result_idempotent d d' :
  parse_result d = Ok d' -> parse_result d' = Ok d'.
Proof.
  unfold parse_result. destruct (decide _) as [Hall|]; [|discriminate].
  intros [= <-]. rewrite decide_True.
  - f_equal. apply map_eq. intros k. rewrite !lookup_fmap.
    destruct (d !! k); cbn; [|reflexivity]. now rewrite check_boolean_idempotent.
  - intros k val. rewrite lookup_fmap.
    destruct (d !! k) as [val0|] eqn:Hk; [|discriminate].
    intros [= <-]. rewrite check_boolean_keeps_kind. exact (Hall k val0 Hk).
Qed.

(** ** Further properties: the helpers of the result tables *)

Lemma drop_dict_values_entry result_ exclude_keys k :
  _drop_dict_values result_ exclude_keys !! k
  = if bool_decide (k ∈ exclude_keys) then None else result_ !! k.
Proof.
  unfold _drop_dict_values. destruct (bool_decide (k ∈ exclude_keys)) eqn:Hk.
  - apply bool_decide_eq_true in Hk. apply map_lookup_filter_None. right.
    intros x _ Hnot. now apply Hnot.
  - apply bool_decide_eq_false in Hk. destruct (result_ !! k) as [x|] eqn:Hx.
    + now apply map_lookup_filter_Some.
    + apply map_lookup_filter_None. now left.
Qed.

(** X13. [_drop_dict_values] removes exactly the excluded keys: an
    excluded key is absent from the result, whether the dictionary had it
    or not, and every other key has the value it had. *)
Theorem drop_dict_values_lookup result_ exclude_keys :
  (forall k, k ∈ exclude_keys -> _drop_dict_values result_ exclude_keys !! k = None)
  /\ (forall k, k ∉ exclude_keys ->
                _drop_dict_values result_ exclude_keys !! k = result_ !! k)
  /\ dom (_drop_dict_values result_ exclude_keys)
     = dom result_ ∖ (list_to_set exclude_keys : gset string).
Proof.
  clear openai_complete openai_validate.
  split; [|split].
  - intros k Hk. rewrite drop_dict_values_entry. now rewrite bool_decide_eq_true_2.
  - intros k Hk. rewrite drop_dict_values_entry. now rewrite bool_decide_eq_false_2.
  - apply set_eq. intros k.
    rewrite elem_of_difference, !elem_of_dom, elem_of_list_to_set.
    rewrite drop_dict_values_entry.
    destruct (bool_decide (k ∈ exclude_keys)) eqn:Hk.
    + apply bool_decide_eq_true in Hk. split; [intros [x Hx]; discriminate|tauto].
    + apply bool_decide_eq_false in Hk. tauto.
Qed.

(** X14. Dropping in two steps is dropping the two lists of keys at once;
    so the order of the steps does not matter and dropping the same keys
    again changes nothing. *)
Theorem drop_dict_values_twice result_ keys1 keys2 :
  _drop_dict_values (_drop_dict_values result_ keys1) keys2
  = _drop_dict_values result_ (keys1 ++ keys2)
  /\ _drop_dict_values (_drop_dict_values result_ keys1) keys2
     = _drop_dict_values (_drop_dict_values result_ keys2) keys1
  /\ _drop_dict_values (_drop_dict_values result_ keys1) keys1
     = _drop_dict_values result_ keys1.
Proof.
  clear openai_complete openai_validate.
  assert (Hlookup : forall a b k,
            _drop_dict_values (_drop_dict_values result_ a) b !! k
            = if bool_decide (k ∈ a) || bool_decide (k ∈ b) then None else result_ !! k).
  { intros a b k. rewrite !drop_dict_values_entry.
    destruct (bool_decide (k ∈ a)), (bool_decide (k ∈ b)); reflexivity. }
  repeat split; apply map_eq; intros k; rewrite !Hlookup.
  - rewrite drop_dict_values_entry.
    destruct (bool_decide (k ∈ keys1)) eqn:H1, (bool_decide (k ∈ keys2)) eqn:H2;
      cbn [orb];
      [rewrite bool_decide_eq_true_2; [reflexivity|]
      |rewrite bool_decide_eq_true_2; [reflexivity|]
      |rewrite bool_decide_eq_true_2; [reflexivity|]
      |rewrite bool_decide_eq_false_2; [reflexivity|]];
      rewrite elem_of_app;
      try apply bool_decide_eq_true in H1; try apply bool_decide_eq_true in H2;
      try apply bool_decide_eq_false in H1; try apply bool_decide_eq_false in H2;
      tauto.
  - now rewrite orb_comm.
  - rewrite drop_dict_values_entry. now destruct (bool_decide (k ∈ keys1)).
Qed.

Lemma tuple_to_dict_fold pairs k :
  forall acc,
    fold_left _tuple_to_dict_step pairs acc !! k
    = match acc !! k, snd <$> filter (fun pair => pair.1 = k) pairs with
      | Some values, more => Some (values ++ more)%list
      | None, [] => None
      | None, more => Some more
      end.
Proof.
  induction pairs as [|[k' v] pairs IH]; intros acc.
  - cbn. destruct (acc !! k); [now rewrite app_nil_r|reflexivity].
  - cbn [fold_left]. rewrite IH. unfold _tuple_to_dict_step. cbn [fst snd].
    destruct (decide (k' = k)) as [->|Hne].
    + rewrite filter_cons_True by reflexivity. cbn [fmap list_fmap snd].
      destruct (acc !! k) as [values|].
      * rewrite lookup_insert_eq. now rewrite <- app_assoc.
      * now rewrite lookup_insert_eq.
    + rewrite filter_cons_False by (cbn; congruence).
      destruct (acc !! k') as [values|]; now rewrite lookup_insert_ne by assumption.
Qed.

(** X15. [_tuple_to_dict] groups the values by their key and keeps their
    order: under a key stand the values that were paired with it, in the
    order of the pairs, and a key that no pair has is absent. *)
Theorem tuple_to_dict_lookup tuple_pairs k :
  _tuple_to_dict tuple_pairs !! k
  = match snd <$> filter (fun pair => pair.1 = k) tuple_pairs with
    | [] => None
    | values => Some values
    end.
Proof.
  unfold _tuple_to_dict. rewrite tuple_to_dict_fold. now rewrite lookup_empty.
Qed.

Lemma foldr_uncurry_app {K A B} (G : K -> A -> list B) l :
  foldr (uncurry (fun k v rest => (G k v ++ rest)%list)) [] l
  = flat_map (fun kv => G kv.1 kv.2) l.
Proof. induction l as [|[k v] l IH]; cbn; [reflexivity|now rewrite IH]. Qed.

(** X16. What [_find_dict_values_with_parent] yields at the outermost
    level: nothing for a value that is not a dictionary, lists included;
    for a dictionary, every entry under a target key, whole, with the
    parent key that was passed; and, when no value of the dictionary is
    itself a dictionary or a list, those entries only. *)
Theorem find_dict_values_top_level parent_key target_keys :
  (forall d, (forall m, d <> VDict m) ->
             _find_dict_values_with_parent d parent_key target_keys = [])
  /\ (forall m k v,
        m !! k = Some v -> k ∈ target_keys ->
        In (parent_key, v)
           (_find_dict_values_with_parent (VDict m) parent_key target_keys))
  /\ (forall m,
        map_Forall (fun _ v => match v with VDict _ | VList _ => False | _ => True end) m ->
        forall p v,
          In (p, v) (_find_dict_values_with_parent (VDict m) parent_key target_keys)
          <-> p = parent_key /\ exists k, k ∈ target_keys /\ m !! k = Some v).
Proof.
  split; [|split].
  - intros d Hd. destruct d; try reflexivity. now destruct (Hd d).
  - intros m k v Hk Ht. cbn [_find_dict_values_with_parent].
    rewrite map_fold_foldr, foldr_uncurry_app.
    apply in_flat_map. exists (k, v). split.
    + apply list_elem_of_In. now apply elem_of_map_to_list.
    + cbn [fst snd]. rewrite bool_decide_eq_true_2 by assumption. now left.
  - intros m Hflat p v. cbn [_find_dict_values_with_parent].
    rewrite map_fold_foldr, foldr_uncurry_app, in_flat_map. split.
    + intros ([k x] & Hin & Hyield). cbn [fst snd] in Hyield.
      apply list_elem_of_In, elem_of_map_to_list in Hin.
      destruct (bool_decide (k ∈ target_keys)) eqn:Hk.
      * destruct Hyield as [[= <- <-]|[]]. apply bool_decide_eq_true in Hk.
        split; [reflexivity|]. now exists k.
      * specialize (Hflat k x Hin). cbn in Hflat.
        destruct x; try contradiction; destruct Hyield.
    + intros [-> (k & Hk & Hv)]. exists (k, v). split.
      * apply list_elem_of_In. now apply elem_of_map_to_list.
      * cbn [fst snd]. rewrite bool_decide_eq_true_2 by assumption. now left.
Qed.

(** ** Further properties: the result tables on the reports *)

Ltac by_cases_on_results :=
  repeat match goal with
         | |- context [match ?x with Ok _ => _ | Raise _ => _ end] => destruct x
         | |- context [match ?x with Some _ => _ | None => _ end] => destruct x
         | |- context [match ?x with VDict _ => _ | _ => _ end] => destruct x
         end.

(** X17. The tables cannot be made from a report of the sequential
    analyser: [create_tables_single_result] raises before it builds a
    table, since that report has its rater under [right-wing-rater] and its
    moderation result directly under [moderator]; when the moderation
    result has no key [mod_results], the error is the [KeyError] for it. *)
Theorem tables_reject_sequential_report openai message llm w results w' :
  analyse_text_message_with_llm openai message llm w = (Ok results, w') ->
  (exists e, create_tables_single_result_inputs results = Raise e)
  /\ (path ["moderator"; "mod_results"] (VDict results) = None ->
      create_tables_single_result_inputs results = Raise (KeyError ["mod_results"])).
Proof.
  intros Hrun.
  apply analyse_ok_inv in Hrun
    as (moderator & o1 & input' & o2 & o3 & o4 & w1 & w2 & w3
        & Hmod & Hdet & Hupd & Hval & Hcls & Hrw & ->).
  assert (Hfirst : exists first, moderator = VDict first).
  { unfold get_openai_moderator_results in Hmod.
    destruct (create openai _ _) as [outputs|]; [|discriminate].
    destruct (results outputs) as [|first rest]; [discriminate|].
    injection Hmod as <-. now exists first. }
  destruct Hfirst as [first ->].
  set (results := <[ "right-wing-rater" := _ ]> _).
  assert (Hm : results !! "moderator" = Some (VDict first)).
  { subst results. rewrite !lookup_insert_ne by discriminate. apply lookup_singleton_eq. }
  assert (Hr : results !! "right_wing_rater" = None).
  { subst results. rewrite !lookup_insert_ne by discriminate.
    now apply lookup_singleton_ne. }
  clearbody results.
  unfold create_tables_single_result_inputs, and_then. cbn [subscript path].
  rewrite Hm, Hr. cbn [subscript]. split.
  - by_cases_on_results; now eexists.
  - destruct (first !! "mod_results"); [discriminate|reflexivity].
Qed.

(** X18. From a report of the parallel analyser the tables get their
    inputs exactly when the report has [categories] under [moderator] and
    [mod_results] and the entries of the classifier and of the rater are
    dictionaries: the moderation tags are then that [categories] entry,
    the classifier tags are the classifier's dictionary without its
    explanation and classification, and the rater's indicator is the
    rater's dictionary without its explanation and rating.  In every other
    case [create_tables_single_result] raises before it builds a table. *)
Theorem tables_accept_parallel_report llm moderator input w report w' :
  parallel_text_analyser_chains llm moderator input w = (Ok report, w') ->
  exists classifier rater,
    report !! "classifier" = Some classifier
    /\ report !! "right_wing_rater" = Some rater
    /\ match path ["moderator"; "mod_results"; "categories"] (VDict report),
             classifier, rater with
       | Some tags, VDict classifier_dict, VDict rater_dict =>
           exists inputs,
             create_tables_single_result_inputs report = Ok inputs
             /\ mod_tags inputs = tags
             /\ classifier_tags inputs
                = _drop_dict_values classifier_dict ["explanation"; "classification"]
             /\ rw_indicator inputs
                = _drop_dict_values rater_dict ["explanation"; "rating"]
       | _, _, _ => exists e, create_tables_single_result_inputs report = Raise e
       end.
Proof.
  intros Hrun.
  apply parallel_report_iff in Hrun
    as (d & c & e & val & cls & rw & moderation & w1 & w2 & w3 & H).
  decompose [and] H. clear H. subst report.
  set (report := aggregate _).
  assert (Hm : report !! "moderator" = Some (VDict moderation))
    by (vm_compute; reflexivity).
  assert (Hc : report !! "classifier" = Some cls) by (vm_compute; reflexivity).
  assert (Hr : report !! "right_wing_rater" = Some rw) by (vm_compute; reflexivity).
  clearbody report.
  exists cls, rw. split; [assumption|]. split; [assumption|].
  unfold create_tables_single_result_inputs, and_then.
  cbn [subscript path drop_dict_values_of]. rewrite Hm, Hc, Hr.
  cbn [subscript drop_dict_values_of].
  destruct (moderation !! "mod_results") as [mod_results|]; [|now eexists].
  destruct mod_results as [| | | | | |results]; cbn [subscript]; try (now eexists).
  destruct (results !! "categories") as [tags|]; [|now eexists].
  destruct cls as [| | | | | |classifier_dict]; cbn [drop_dict_values_of];
    try (now eexists).
  destruct rw as [| | | | | |rater_dict]; cbn [drop_dict_values_of];
    now eexists.
Qed.

End Pipeline.

(** ** The analysers on the test doubles *)

#[local] Abbreviation analyse_mocked :=
  (analyse_text_message_with_llm mock_format_instructions mock_json_parse mock_repr
     (mock_moderations mock_moderation) "You suck!").

#[local] Abbreviation parallel_mocked llm :=
  (parallel_text_analyser_chains mock_format_instructions mock_json_parse mock_repr llm
     (OpenAIModerationChain_default (mock_moderations mock_moderation))
     {[ "message" := VStr "You suck!" ]}).

#[local] Abbreviation VALIDATOR_PROMPT_mocked :=
  (HATESPEECH_VALIDATOR_PROMPT mock_format_instructions).

(** The fallback of a stage, on the classifier prompt answered in prose. *)
Lemma run_stage_fallback_example :
  exists text,
    prompt_invoke mock_repr (HATESPEECH_CLASSIFICATION_PROMPT mock_format_instructions)
      {[ "message" := VStr "You suck!" ]} = Ok text
    /\ run_stage mock_json_parse mock_repr
         (HATESPEECH_CLASSIFICATION_PROMPT mock_format_instructions)
         HatespeechClassifierFormat garbage_llm {[ "message" := VStr "You suck!" ]}
         empty_world
       = (Ok (VStr garbage_reply),
          {| llm_calls := [call_of garbage_llm text; call_of garbage_llm text];
             warnings := [parsing_failed_warning] |}).
Proof.
  eexists. split; [vm_compute; reflexivity|].
  apply (run_stage_fallback mock_json_parse mock_repr _ _ garbage_llm _ empty_world
           _ garbage_reply); vm_compute; reflexivity.
Qed.

(** C1 on the mocked scenario: the detector answers in prose, both times
    it is asked; after the warning and the second call the run raises
    [ValueError] and returns no report. *)
Lemma fallback_text_recorded_except_for_detector_witness :
  exists text,
    analyse_mocked garbage_llm empty_world
    = (Raise (ValueError "dictionary update sequence element #0 has length 1; 2 is required"),
       {| llm_calls := [call_of garbage_llm text; call_of garbage_llm text];
          warnings := [parsing_failed_warning] |}).
Proof.
  destruct (detector_prompt_renders mock_format_instructions mock_repr "You suck!")
    as [text Hrender].
  exists text.
  destruct (fallback_text_recorded_except_for_detector mock_format_instructions
              mock_json_parse mock_repr (mock_moderations mock_moderation) "You suck!"
              garbage_llm {[ "message" := VStr "You suck!" ]} ∅ empty_world text
              garbage_reply eq_refl) as [Hplain _].
  destruct (Hplain garbage_reply eq_refl) as [_ Hdetector].
  apply Hdetector; [vm_compute; reflexivity|exact Hrender|vm_compute; reflexivity].
Defined.

(** A stage whose second call fails at the provider raises that failure. *)
Lemma run_stage_retry_fails_example :
  fst (run_stage mock_json_parse mock_repr
         (HATESPEECH_CLASSIFICATION_PROMPT mock_format_instructions)
         HatespeechClassifierFormat garbage_then_failing_llm
         {[ "message" := VStr "You suck!" ]} empty_world)
  = Raise (ProviderError "Connection error.").
Proof. vm_compute. reflexivity. Qed.

(** C2, as stated, fails: with an unreachable model the detector stage
    fails and the run ends without a report, so that there is no validation
    slot at all, in either analyser. *)
Lemma detector_failure_leaves_no_validation_slot :
  fst (analyse_mocked failing_llm empty_world) = Raise (ProviderError "Connection error.")
  /\ fst (parallel_mocked failing_llm empty_world) = Raise (ProviderError "Connection error.")
  /\ ~ (exists report slot,
          fst (analyse_mocked failing_llm empty_world) = Ok report
          /\ report !! "validator" = Some slot)
  /\ ~ (exists report slot,
          fst (parallel_mocked failing_llm empty_world) = Ok report
          /\ path ["detection"; "validator"] (VDict report) = Some slot).
Proof.
  assert (Hseq : fst (analyse_mocked failing_llm empty_world)
                 = Raise (ProviderError "Connection error."))
    by (vm_compute; reflexivity).
  assert (Hpar : fst (parallel_mocked failing_llm empty_world)
                 = Raise (ProviderError "Connection error."))
    by (vm_compute; reflexivity).
  repeat split; try assumption.
  - intros (report & slot & Hrun & _). rewrite Hseq in Hrun. discriminate.
  - intros (report & slot & Hrun & _). rewrite Hpar in Hrun. discriminate.
Qed.

(** The run on the unreachable model: one call, the detector's, and the
    provider error. *)
Lemma detector_failure_aborts_run_witness :
  exists text,
    analyse_mocked failing_llm empty_world
    = (Raise (ProviderError "Connection error."),
       {| llm_calls := [call_of failing_llm text]; warnings := [] |}).
Proof.
  eexists.
  apply (proj1 (detector_failure_aborts_run mock_format_instructions mock_json_parse
                  mock_repr (mock_moderations mock_moderation)
                  (OpenAIModerationChain_default (mock_moderations mock_moderation))
                  "You suck!" failing_llm {[ "message" := VStr "You suck!" ]}
                  empty_world _ _));
    vm_compute; reflexivity.
Defined.

(** C3 on the mocked scenario: the second call of the parallel analyser is
    the validator's, and its prompt is rendered from the detector's output
    in the place of the message; the text [You suck!] does not occur in it.
    The sequential analyser sends the prompt rendered from the message. *)
Lemma parallel_validator_prompt_lacks_message :
  exists sent expected,
    call_prompt <$> (llm_calls (snd (parallel_mocked mock_llm empty_world)) !! 1%nat)
    = Some sent
    /\ prompt_invoke mock_repr VALIDATOR_PROMPT_mocked
         {[ "message" := VDict detector_dict;
            "classification" := VStr "Direct hate speech";
            "explanation" := VStr "The author insults the reader." ]} = Ok sent
    /\ contains "You suck!" sent = false
    /\ call_prompt <$> (llm_calls (snd (analyse_mocked mock_llm empty_world)) !! 1%nat)
       = Some expected
    /\ prompt_invoke mock_repr VALIDATOR_PROMPT_mocked
         {[ "message" := VStr "You suck!";
            "classification" := VStr "Direct hate speech";
            "explanation" := VStr "The author insults the reader." ]} = Ok expected
    /\ contains "You suck!" expected = true.
Proof.
  eexists _, _. split; [vm_compute; reflexivity|].
  split; [vm_compute; reflexivity|]. split; [vm_compute; reflexivity|].
  split; [vm_compute; reflexivity|]. split; vm_compute; reflexivity.
Qed.

(** C4 on the mocked scenario: a detector reply in prose is asked for
    again, a warning is logged, and the run then raises [ValueError] from
    [input.update] on the text: there is no report.  The parallel analyser
    has no second attempt and raises the parser's exception. *)
Lemma detector_fallback_raises_ValueError :
  fst (analyse_mocked garbage_llm empty_world)
  = Raise (ValueError "dictionary update sequence element #0 has length 1; 2 is required")
  /\ length (llm_calls (snd (analyse_mocked garbage_llm empty_world))) = 2%nat
  /\ warnings (snd (analyse_mocked garbage_llm empty_world)) = [parsing_failed_warning]
  /\ report_path ["detector"] (fst (analyse_mocked garbage_llm empty_world)) = None
  /\ fst (parallel_mocked garbage_llm empty_world)
     = Raise (OutputParserException garbage_reply)
  /\ warnings (snd (parallel_mocked garbage_llm empty_world)) = [].
Proof. repeat split; vm_compute; reflexivity. Qed.

(** C5, as stated, fails: the mocked scenario ends with a report in which
    there is no [categories] under [moderator]; the flag stands under
    [moderator], [mod_results], [categories]. *)
Lemma moderation_flag_not_under_moderator :
  is_ok (fst (parallel_mocked mock_llm empty_world)) = true
  /\ report_path ["detection"; "validator"; "classification"]
       (fst (parallel_mocked mock_llm empty_world)) = Some (VStr "Direct hate speech")
  /\ report_path ["moderator"; "categories"; "harassment"]
       (fst (parallel_mocked mock_llm empty_world)) = None
  /\ report_path ["moderator"; "categories"]
       (fst (parallel_mocked mock_llm empty_world)) = None
  /\ report_path ["moderator"; "mod_results"; "categories"; "harassment"]
       (fst (parallel_mocked mock_llm empty_world)) = Some (VBool true).
Proof. repeat split; vm_compute; reflexivity. Qed.

(** The keys of the report of the mocked scenario. *)
Lemma moderation_is_nested_under_output_key_witness :
  exists report w',
    parallel_mocked mock_llm empty_world = (Ok report, w')
    /\ dom report
       = ({[ "moderator"; "detection"; "classifier"; "right_wing_rater" ]} : gset string).
Proof.
  assert (Hok : is_ok (fst (parallel_mocked mock_llm empty_world)) = true)
    by (vm_compute; reflexivity).
  destruct (parallel_mocked mock_llm empty_world) as [[report|e] w'] eqn:Hrun;
    [|discriminate Hok].
  exists report, w'. split; [reflexivity|].
  exact (proj1 (moderation_is_nested_under_output_key mock_format_instructions
                  mock_json_parse mock_repr mock_llm
                  (OpenAIModerationChain_default (mock_moderations mock_moderation))
                  {[ "message" := VStr "You suck!" ]} empty_world report w' Hrun)).
Defined.

(** C6, as stated, fails: the classifier's reply carries the words [yes]
    and [No] in two fields that the schema declares boolean, and both
    analysers report them as the strings they are. *)
Lemma pipeline_keeps_textual_boolean :
  In ("other_hate_speech", TBool) HatespeechClassifierFormat
  /\ In ("sexism", TBool) HatespeechClassifierFormat
  /\ mock_complete []
       "Please analyze the following message and categorize its content"
     = inl classifier_reply
  /\ report_path ["classifier"; "other_hate_speech"]
       (fst (parallel_mocked mock_llm empty_world)) = Some (VStr "yes")
  /\ report_path ["classifier"; "sexism"]
       (fst (parallel_mocked mock_llm empty_world)) = Some (VStr "No")
  /\ report_path ["classifier"; "other_hate_speech"]
       (fst (analyse_mocked mock_llm empty_world)) = Some (VStr "yes")
  /\ report_path ["classifier"; "sexism"]
       (fst (analyse_mocked mock_llm empty_world)) = Some (VStr "No").
Proof.
  split; [cbn; tauto|]. split; [cbn; tauto|].
  repeat split; vm_compute; reflexivity.
Qed.

(** The checker on the classifier's dictionary of the mocked scenario. *)
Lemma parse_result_coerces_witness :
  exists d',
    parse_result classifier_dict = Ok d'
    /\ d' !! "other_hate_speech" = Some (VBool true)
    /\ d' !! "sexism" = Some (VBool false)
    /\ d' !! "classification" = Some (VStr "Offensive insult")
    /\ d' !! "racism" = Some (VBool false).
Proof.
  assert (Hall : map_Forall (fun _ val => has_lower_or_is_bool val = true) classifier_dict)
    by decided.
  destruct (parse_result_coerces classifier_dict Hall)
    as (d' & Hparse & Htrue & Hfalse & Hother & Hbool & _).
  exists d'. split; [exact Hparse|]. split; [|split; [|split]].
  - apply (Htrue "other_hate_speech" "yes"); [vm_compute; reflexivity|].
    decided.
  - apply (Hfalse "sexism" "No"); [vm_compute; reflexivity|].
    decided.
  - apply (Hother "classification" "Offensive insult"); [vm_compute; reflexivity| |];
      decided.
  - apply (Hbool "racism" false). vm_compute. reflexivity.
Defined.

(** C7, as stated, fails: given a model configured with temperature 0.7,
    which is what [ChatOpenAI()] is by default, the analyser makes its four
    calls at 0.7. *)
Lemma analyser_calls_at_the_given_temperature :
  map call_temperature (llm_calls (snd (analyse_mocked mock_llm_default empty_world)))
  = [7 # 10; 7 # 10; 7 # 10; 7 # 10]
  /\ map call_temperature (llm_calls (snd (parallel_mocked mock_llm_default empty_world)))
     = [7 # 10; 7 # 10; 7 # 10; 7 # 10]
  /\ ~ (7 # 10 == 0)%Q.
Proof.
  split; [vm_compute; reflexivity|]. split; [vm_compute; reflexivity|].
  intros H. discriminate H.
Qed.

(** A detector chain built by [create_public_chat_gpt_chain]. *)
Lemma temperature_of_model_calls_witness :
  exists chain,
    create_public_chat_gpt_chain mock_repr (fun _ _ => mock_complete) mock_validate
      (HATESPEECH_DETECTOR_PROMPT mock_format_instructions)
      (JsonOutputParser mock_json_parse HatespeechDetectionFormat)
      "gpt-3.5-turbo-1106" ∅ = Ok chain
    /\ only_calls (fun c => call_temperature c = 0%Q)
         (chain {[ "message" := VStr "You suck!" ]}).
Proof.
  eexists. split; [reflexivity|].
  apply (proj1 (temperature_of_model_calls mock_format_instructions mock_json_parse
                  mock_repr (fun _ _ => mock_complete) mock_validate mock_llm)
           value (HATESPEECH_DETECTOR_PROMPT mock_format_instructions)
           (JsonOutputParser mock_json_parse HatespeechDetectionFormat)
           "gpt-3.5-turbo-1106" ∅).
  reflexivity.
Defined.

(** The report of the mocked scenario is the aggregate of the outputs of
    its five parts. *)
Lemma report_is_aggregate_of_slots_witness :
  exists report w' validator classifier rater,
    parallel_mocked mock_llm empty_world = (Ok report, w')
    /\ path ["detection"; "validator"] (VDict report) = Some validator
    /\ path ["classifier"] (VDict report) = Some classifier
    /\ path ["right_wing_rater"] (VDict report) = Some rater
    /\ dom report
       = ({[ "moderator"; "detection"; "classifier"; "right_wing_rater" ]} : gset string).
Proof.
  assert (Hok : is_ok (fst (parallel_mocked mock_llm empty_world)) = true)
    by (vm_compute; reflexivity).
  destruct (parallel_mocked mock_llm empty_world) as [[report|e] w'] eqn:Hrun;
    [|discriminate Hok].
  destruct (proj1 (report_is_aggregate_of_slots mock_format_instructions mock_json_parse
                     mock_repr mock_llm
                     (OpenAIModerationChain_default (mock_moderations mock_moderation))
                     {[ "message" := VStr "You suck!" ]} empty_world report w') Hrun)
    as (d & c & e & val & cls & rw & moderation & w1 & w2 & w3
        & _ & _ & Hdom & _ & _ & _ & Hval & Hcls & Hrw).
  exists report, w', val, cls, rw.
  split; [reflexivity|]. split; [exact Hval|]. split; [exact Hcls|].
  split; [exact Hrw|exact Hdom].
Defined.

(** The loop on the mocked scenario, after its detector stage. *)
Lemma detector_output_merged_into_input_witness :
  exists w1,
    run_stage mock_json_parse mock_repr
      (HATESPEECH_DETECTOR_PROMPT mock_format_instructions) HatespeechDetectionFormat
      mock_llm {[ "message" := VStr "You suck!" ]} empty_world
    = (Ok (VDict detector_dict), w1)
    /\ analyse_loop mock_json_parse mock_repr mock_llm
         (_text_analyser_prompts mock_format_instructions)
         ({[ "message" := VStr "You suck!" ]}, ∅) empty_world
       = analyse_loop mock_json_parse mock_repr mock_llm
           (List.tl (_text_analyser_prompts mock_format_instructions))
           (detector_dict ∪ {[ "message" := VStr "You suck!" ]},
            <[ "detector" := VDict detector_dict ]> ∅) w1.
Proof.
  assert (Hdet : exists w1,
             run_stage mock_json_parse mock_repr
               (HATESPEECH_DETECTOR_PROMPT mock_format_instructions)
               HatespeechDetectionFormat mock_llm
               {[ "message" := VStr "You suck!" ]} empty_world
             = (Ok (VDict detector_dict), w1))
    by (eexists; vm_compute; reflexivity).
  destruct Hdet as [w1 Hdet]. exists w1. split; [exact Hdet|].
  exact (proj1 (detector_output_merged_into_input mock_format_instructions
                  mock_json_parse mock_repr mock_llm "You suck!" ∅ empty_world
                  detector_dict w1 Hdet)).
Defined.

(** C10, as stated, fails: [_call] raises [KeyError] on an input without
    the input key, for which the chain's [invoke] raises [ValueError], and
    [IndexError] on a reply without a result; none of them is an error of
    the transport. *)
Lemma moderation_chain_raises_without_provider_error :
  _call (OpenAIModerationChain_default (mock_moderations flagged_moderation)) ∅
  = Raise (KeyError ["message"])
  /\ Chain_invoke (OpenAIModerationChain_default (mock_moderations flagged_moderation)) ∅
     = Raise (ValueError "Missing some input keys")
  /\ _call (OpenAIModerationChain_default empty_moderations)
       {[ "message" := VStr "You suck!" ]}
     = Raise (IndexError "list index out of range")
  /\ Chain_invoke (OpenAIModerationChain_default empty_moderations)
       {[ "message" := VStr "You suck!" ]}
     = Raise (IndexError "list index out of range").
Proof. repeat split; vm_compute; reflexivity. Qed.

(** A flagged result, with [error] set: [_call] returns it. *)
Lemma moderation_call_outcomes_witness :
  _call {| client := mock_moderations flagged_moderation;
           model_name := "text-moderation-latest";
           error := true;
           input_key := "message";
           output_key := "mod_results" |}
        {[ "message" := VStr "You suck!" ]}
  = Ok {[ "mod_results" := VDict flagged_moderation ]}.
Proof.
  destruct (moderation_call_outcomes
              {| client := mock_moderations flagged_moderation;
                 model_name := "text-moderation-latest";
                 error := true;
                 input_key := "message";
                 output_key := "mod_results" |}
              {[ "message" := VStr "You suck!" ]})
    as (_ & Hfirst & _).
  apply (Hfirst (VStr "You suck!")
           {| response_id := "modr-1"; response_model := "text-moderation-latest";
              results := [flagged_moderation] |} flagged_moderation);
    vm_compute; reflexivity.
Defined.

(** ** The further properties on the test doubles *)

(** The classifier's prompt after the merge of the mocked detector
    dictionary. *)
Lemma merged_fields_leave_prompts_unchanged_witness :
  prompt_invoke mock_repr (HATESPEECH_CLASSIFICATION_PROMPT mock_format_instructions)
    (detector_dict ∪ {[ "message" := VStr "You suck!" ]})
  = prompt_invoke mock_repr (HATESPEECH_CLASSIFICATION_PROMPT mock_format_instructions)
      {[ "message" := VStr "You suck!" ]}.
Proof.
  exact (List.Forall_inv
           (List.Forall_inv_tail
              (merged_fields_leave_prompts_unchanged mock_format_instructions mock_repr
                 "You suck!" detector_dict
                 ltac:(vm_compute; reflexivity) ltac:(vm_compute; reflexivity)))).
Defined.

(** A validator input without an explanation and one with it. *)
Lemma validator_prompt_ignores_explanation_witness :
  prompt_invoke mock_repr VALIDATOR_PROMPT_mocked
    {[ "message" := VStr "You suck!"; "classification" := VStr "Direct hate speech" ]}
  = prompt_invoke mock_repr VALIDATOR_PROMPT_mocked
      {[ "message" := VStr "You suck!"; "classification" := VStr "Direct hate speech";
         "explanation" := VStr "The author insults the reader." ]}.
Proof.
  apply (proj2 (proj2 (proj2 (proj2
           (validator_prompt_ignores_explanation mock_format_instructions mock_repr
              {[ "message" := VStr "You suck!";
                 "classification" := VStr "Direct hate speech" ]})))));
    vm_compute; reflexivity.
Defined.

(** The report of the sequential analyser on the mocked scenario. *)
Lemma sequential_report_shape_witness :
  exists results w',
    analyse_mocked mock_llm empty_world = (Ok results, w')
    /\ dom results
       = ({[ "moderator"; "detector"; "validator"; "classifier"; "right-wing-rater" ]}
          : gset string).
Proof.
  assert (Hok : is_ok (fst (analyse_mocked mock_llm empty_world)) = true)
    by (vm_compute; reflexivity).
  destruct (analyse_mocked mock_llm empty_world) as [[results|e] w'] eqn:Hrun;
    [|discriminate Hok].
  exists results, w'. split; [reflexivity|].
  exact (proj1 (sequential_report_shape mock_format_instructions mock_json_parse
                  mock_repr (mock_moderations mock_moderation) "You suck!" mock_llm
                  empty_world results w' Hrun)).
Defined.

(** An unreachable moderation endpoint. *)
Lemma no_model_call_iff_moderation_fails_witness :
  analyse_text_message_with_llm mock_format_instructions mock_json_parse mock_repr
    failing_moderations "You suck!" mock_llm empty_world
  = (Raise (ProviderError "Connection error."), empty_world).
Proof.
  apply (proj1 (no_model_call_iff_moderation_fails mock_format_instructions
                  mock_json_parse mock_repr failing_moderations "You suck!" mock_llm
                  empty_world)).
  vm_compute. reflexivity.
Defined.

(** A detector whose dictionary has a message of its own. *)
Lemma detector_message_replaces_input_witness :
  exists w1,
    analyse_loop (constant_json_parse (VDict overriding_dict)) mock_repr mock_llm
      (_text_analyser_prompts mock_format_instructions)
      ({[ "message" := VStr "You suck!" ]}, ∅) empty_world
    = analyse_loop (constant_json_parse (VDict overriding_dict)) mock_repr mock_llm
        (List.tl (_text_analyser_prompts mock_format_instructions))
        (overriding_dict, <[ "detector" := VDict overriding_dict ]> ∅) w1.
Proof.
  assert (Hdet : exists w1,
             run_stage (constant_json_parse (VDict overriding_dict)) mock_repr
               (HATESPEECH_DETECTOR_PROMPT mock_format_instructions)
               HatespeechDetectionFormat mock_llm
               {[ "message" := VStr "You suck!" ]} empty_world
             = (Ok (VDict overriding_dict), w1))
    by (eexists; vm_compute; reflexivity).
  destruct Hdet as [w1 Hdet]. exists w1.
  apply (detector_message_replaces_input mock_format_instructions
           (constant_json_parse (VDict overriding_dict)) mock_repr mock_llm "You suck!" ∅
           empty_world overriding_dict w1 Hdet).
  vm_compute. now eexists.
Defined.

(** A detector whose dictionary has no classification. *)
Lemma detector_reply_without_fields_witness :
  exists w1,
    analyse_text_message_with_llm mock_format_instructions
      (constant_json_parse (VDict unclassified_dict)) mock_repr
      (mock_moderations mock_moderation) "You suck!" mock_llm empty_world
    = (Raise (KeyError ["classification"]), w1).
Proof.
  assert (Hdet : exists w1,
             run_stage (constant_json_parse (VDict unclassified_dict)) mock_repr
               (HATESPEECH_DETECTOR_PROMPT mock_format_instructions)
               HatespeechDetectionFormat mock_llm
               {[ "message" := VStr "You suck!" ]} empty_world
             = (Ok (VDict unclassified_dict), w1))
    by (eexists; vm_compute; reflexivity).
  destruct Hdet as [w1 Hdet]. exists w1.
  exact (proj1 (proj1 (detector_reply_without_fields mock_format_instructions
                         (constant_json_parse (VDict unclassified_dict)) mock_repr
                         (mock_moderations mock_moderation)
                         (OpenAIModerationChain_default (mock_moderations mock_moderation))
                         "You suck!" mock_llm {[ "message" := VStr "You suck!" ]}
                         empty_world unclassified_dict w1)
                  ltac:(vm_compute; reflexivity))
           ltac:(vm_compute; reflexivity) Hdet).
Defined.

(** A detector whose dictionary has no explanation: the sequential
    analyser returns a report, the parallel one raises. *)
Lemma detector_reply_without_explanation_example :
  report_path ["detector"]
    (fst (analyse_text_message_with_llm mock_format_instructions
            (constant_json_parse (VDict unexplained_dict)) mock_repr
            (mock_moderations mock_moderation) "You suck!" mock_llm empty_world))
  = Some (VDict unexplained_dict)
  /\ fst (parallel_text_analyser_chains mock_format_instructions
            (constant_json_parse (VDict unexplained_dict)) mock_repr mock_llm
            (OpenAIModerationChain_default (mock_moderations mock_moderation))
            {[ "message" := VStr "You suck!" ]} empty_world)
     = Raise (KeyError ["explanation"]).
Proof. split; vm_compute; reflexivity. Qed.

(** A detector whose reply is a JSON array of pairs: [input.update] takes
    the pairs, the sequential analyser returns a report whose detector
    entry is the list, and the parallel one cannot pick a field from it. *)
Lemma detector_reply_of_pairs_example :
  input_update {[ "message" := VStr "You suck!" ]} detector_pairs
  = Ok {[ "message" := VStr "You suck!";
          "classification" := VStr "Direct hate speech";
          "explanation" := VStr "The author insults the reader." ]}
  /\ report_path ["detector"]
       (fst (analyse_text_message_with_llm mock_format_instructions
               (constant_json_parse detector_pairs) mock_repr
               (mock_moderations mock_moderation) "You suck!" mock_llm empty_world))
     = Some detector_pairs
  /\ fst (parallel_text_analyser_chains mock_format_instructions
            (constant_json_parse detector_pairs) mock_repr mock_llm
            (OpenAIModerationChain_default (mock_moderations mock_moderation))
            {[ "message" := VStr "You suck!" ]} empty_world)
     = Raise (TypeError "indices must be integers or the object is not subscriptable")
  /\ input_update {[ "message" := VStr "You suck!" ]} (VInt 1)
     = Raise (TypeError "object is not iterable").
Proof. repeat split; vm_compute; reflexivity. Qed.



(** The classifier's dictionary, checked twice. *)
Lemma parse_result_idempotent_witness :
  exists d',
    parse_result classifier_dict = Ok d' /\ parse_result d' = Ok d'.
Proof.
  destruct (parse_result classifier_dict) as [d'|e] eqn:Hparse.
  - exists d'. split; [reflexivity|].
    exact (parse_result_idempotent classifier_dict d' Hparse).
  - exfalso.
    assert (Hok : is_ok (parse_result classifier_dict) = true)
      by (vm_compute; reflexivity).
    rewrite Hparse in Hok. discriminate Hok.
Defined.

(** The classifier's tags of the mocked scenario. *)
Lemma drop_dict_values_lookup_witness :
  _drop_dict_values classifier_dict ["explanation"; "classification"] !! "explanation"
  = None
  /\ _drop_dict_values classifier_dict ["explanation"; "classification"] !! "racism"
     = Some (VBool false).
Proof.
  destruct (drop_dict_values_lookup classifier_dict ["explanation"; "classification"])
    as (Hdrop & Hkeep & _).
  split.
  - apply Hdrop. decided.
  - rewrite Hkeep by decided. vm_compute. reflexivity.
Defined.

(** The rater's dictionary of the mocked scenario, searched for its
    rating. *)
Lemma find_dict_values_top_level_witness :
  In (Some "right_wing_rater", VStr "0")
     (_find_dict_values_with_parent (VDict rater_dict) (Some "right_wing_rater")
        ["classification"; "explanation"; "rating"]).
Proof.
  apply (proj1 (proj2 (find_dict_values_top_level (Some "right_wing_rater")
                         ["classification"; "explanation"; "rating"]))
           rater_dict "rating").
  - vm_compute. reflexivity.
  - decided.
Defined.

(** The tables on the report of the sequential analyser. *)
Lemma tables_reject_sequential_report_witness :
  exists results w',
    analyse_mocked mock_llm empty_world = (Ok results, w')
    /\ exists e, create_tables_single_result_inputs results = Raise e.
Proof.
  assert (Hok : is_ok (fst (analyse_mocked mock_llm empty_world)) = true)
    by (vm_compute; reflexivity).
  destruct (analyse_mocked mock_llm empty_world) as [[results|e] w'] eqn:Hrun;
    [|discriminate Hok].
  exists results, w'. split; [reflexivity|].
  exact (proj1 (tables_reject_sequential_report mock_format_instructions mock_json_parse
                  mock_repr (mock_moderations mock_moderation) "You suck!" mock_llm
                  empty_world results w' Hrun)).
Defined.

(** The tables on the report of the parallel analyser. *)
Lemma tables_accept_parallel_report_witness :
  exists report w' classifier rater,
    parallel_mocked mock_llm empty_world = (Ok report, w')
    /\ report !! "classifier" = Some classifier
    /\ report !! "right_wing_rater" = Some rater.
Proof.
  assert (Hok : is_ok (fst (parallel_mocked mock_llm empty_world)) = true)
    by (vm_compute; reflexivity).
  destruct (parallel_mocked mock_llm empty_world) as [[report|e] w'] eqn:Hrun;
    [|discriminate Hok].
  destruct (tables_accept_parallel_report mock_format_instructions mock_json_parse
              mock_repr mock_llm
              (OpenAIModerationChain_default (mock_moderations mock_moderation))
              {[ "message" := VStr "You suck!" ]} empty_world report w' Hrun)
    as (classifier & rater & Hc & Hr & _).
  exists report, w', classifier, rater.
  split; [reflexivity|]. split; [exact Hc|exact Hr].
Defined.
